(** * The metrics record builder of pkg/otel/metrics/arrow/metrics.go

    A shallow embedding of [MetricsBuilder] (its constructor, its [init],
    [Build], [Append] and [Release] methods and the [MetricsSchema])
    together with the collaborators it calls.  Go pointers to shared builders are modelled as
    handles into the record builder's column store; [error] results are
    explicit; fixed-width integers are [Z] with the wrap-around written out. *)

From stdpp Require Import base numbers list strings.

Local Open Scope Z_scope.

(** ** Errors *)

Inductive error : Type :=
| ErrBuilderAlreadyReleased   (* carrow.ErrBuilderAlreadyReleased *)
| ErrColumnAppend             (* a column builder rejected a value *)
| ErrBuildFailure             (* the record could not be materialised *)
| Wrapped (cause : error).    (* werror.Wrap: same error, with call-site context *)

Module werror.
Definition Wrap (err : error) : error := Wrapped err.

(** The innermost error of a chain of wraps, what errors.Is compares. *)
Fixpoint Cause (err : error) : error :=
  match err with
  | Wrapped e => Cause e
  | e => e
  end.
End werror.

(** ** Fixed-width integers *)

Definition uint16 (n : Z) : Z := n mod 65536.
Definition uint8 (n : Z) : Z := n mod 256.

(** ** Column names (package constants) *)

Module constants.
Inductive ColumnName : Type :=
| ID | Resource | Scope | SchemaUrl | MetricType | Name | Description
| Unit | AggregationTemporality | IsMonotonic.

Definition index (c : ColumnName) : nat :=
  match c with
  | ID => 0 | Resource => 1 | Scope => 2 | SchemaUrl => 3 | MetricType => 4
  | Name => 5 | Description => 6 | Unit => 7 | AggregationTemporality => 8
  | IsMonotonic => 9
  end%nat.

Definition eqb (c d : ColumnName) : bool := Nat.eqb (index c) (index d).

Definition all : list ColumnName :=
  [ID; Resource; Scope; SchemaUrl; MetricType; Name; Description; Unit;
   AggregationTemporality; IsMonotonic].
End constants.

(** ** The input data model (pdata: pcommon and pmetric) *)

Module pcommon.
Inductive Value : Type :=
| ValueStr (s : string)
| ValueInt (i : Z)
| ValueBool (b : bool).

(** An attribute set: ordered mapping of string keys to typed values. *)
Definition Map : Type := list (string * Value).

Record Resource : Type := {
  Resource_Attributes : Map;
  Resource_DroppedAttributesCount : Z
}.

Record InstrumentationScope : Type := {
  Scope_Name : string;
  Scope_Version : string;
  Scope_Attributes : Map;
  Scope_DroppedAttributesCount : Z
}.
End pcommon.

Module pmetric.
Record NumberDataPoint : Type := {
  ndp_Attributes : pcommon.Map;
  ndp_Timestamp : Z;
  ndp_Value : Z
}.

Record SummaryDataPoint : Type := {
  sdp_Attributes : pcommon.Map;
  sdp_Timestamp : Z;
  sdp_Count : Z;
  sdp_Sum : Z
}.

Record HistogramDataPoint : Type := {
  hdp_Attributes : pcommon.Map;
  hdp_Timestamp : Z;
  hdp_Count : Z;
  hdp_BucketCounts : list Z;
  hdp_ExplicitBounds : list Z
}.

Record ExponentialHistogramDataPoint : Type := {
  ehdp_Attributes : pcommon.Map;
  ehdp_Timestamp : Z;
  ehdp_Count : Z;
  ehdp_Scale : Z;
  ehdp_ZeroCount : Z
}.

Record Gauge : Type := { Gauge_DataPoints : list NumberDataPoint }.

Record Sum : Type := {
  Sum_AggregationTemporality : Z;      (* an int32 enumeration *)
  Sum_IsMonotonic : bool;
  Sum_DataPoints : list NumberDataPoint
}.

Record Summary : Type := { Summary_DataPoints : list SummaryDataPoint }.

Record Histogram : Type := {
  Histogram_AggregationTemporality : Z;
  Histogram_DataPoints : list HistogramDataPoint
}.

Record ExponentialHistogram : Type := {
  ExponentialHistogram_AggregationTemporality : Z;
  ExponentialHistogram_DataPoints : list ExponentialHistogramDataPoint
}.

(** The payload of a metric: a tagged union.  [DataOther] stands for a
    discriminant outside the six MetricType constants, the [extra]-th
    value after them: MetricType is an int32 and the switch in [Append]
    has a default branch for such a value.  pdata's Type() returns none:
    a payload it does not recognise is reported as Empty, so no metric
    pdata hands to [Append] carries [DataOther]. *)
Inductive MetricData : Type :=
| DataEmpty
| DataGauge (g : Gauge)
| DataSum (s : Sum)
| DataHistogram (h : Histogram)
| DataExponentialHistogram (e : ExponentialHistogram)
| DataSummary (s : Summary)
| DataOther (extra : positive).

Record Metric : Type := {
  Name : string;
  Description : string;
  Unit : string;
  Data : MetricData
}.

(** MetricType is an int32. *)
Definition MetricTypeEmpty : Z := 0.
Definition MetricTypeGauge : Z := 1.
Definition MetricTypeSum : Z := 2.
Definition MetricTypeHistogram : Z := 3.
Definition MetricTypeExponentialHistogram : Z := 4.
Definition MetricTypeSummary : Z := 5.



Definition Type_ (m : Metric) : Z :=
  match Data m with
  | DataEmpty => MetricTypeEmpty
  | DataGauge _ => MetricTypeGauge
  | DataSum _ => MetricTypeSum
  | DataHistogram _ => MetricTypeHistogram
  | DataExponentialHistogram _ => MetricTypeExponentialHistogram
  | DataSummary _ => MetricTypeSummary
  | DataOther extra => MetricTypeSummary + Z.pos extra
  end.

(** The typed accessors give the zero value when the payload is of
    another kind. *)
Definition GetGauge (m : Metric) : Gauge :=
  match Data m with DataGauge g => g | _ => {| Gauge_DataPoints := [] |} end.

Definition GetSum (m : Metric) : Sum :=
  match Data m with
  | DataSum s => s
  | _ => {| Sum_AggregationTemporality := 0; Sum_IsMonotonic := false;
            Sum_DataPoints := [] |}
  end.

Definition GetSummary (m : Metric) : Summary :=
  match Data m with DataSummary s => s | _ => {| Summary_DataPoints := [] |} end.

Definition GetHistogram (m : Metric) : Histogram :=
  match Data m with
  | DataHistogram h => h
  | _ => {| Histogram_AggregationTemporality := 0; Histogram_DataPoints := [] |}
  end.

Definition GetExponentialHistogram (m : Metric) : ExponentialHistogram :=
  match Data m with
  | DataExponentialHistogram e => e
  | _ => {| ExponentialHistogram_AggregationTemporality := 0;
            ExponentialHistogram_DataPoints := [] |}
  end.

(** The hierarchical batch: resources, their scopes, their metrics. *)
Record ScopeMetrics : Type := {
  sm_Scope : pcommon.InstrumentationScope;
  sm_SchemaUrl : string;
  sm_Metrics : list Metric
}.

Record ResourceMetrics : Type := {
  rm_Resource : pcommon.Resource;
  rm_SchemaUrl : string;
  rm_ScopeMetrics : list ScopeMetrics
}.

Definition Metrics : Type := list ResourceMetrics.
End pmetric.

(** ** The optimizer's rows *)

(** One row of the optimized batch (FlattenedMetric, declared with the
    optimizer), with the fields [Append] reads. *)
Record FlattenedMetric : Type := {
  ResourceMetricsID : string;
  Resource : pcommon.Resource;
  ResourceSchemaUrl : string;
  ScopeMetricsID : string;
  Scope : pcommon.InstrumentationScope;
  ScopeSchemaUrl : string;
  Metric : pmetric.Metric
}.

(** Modelled from the spec: the pre-encode optimizer (MetricsOptimizer,
    NewMetricsOptimizer, Optimize), which is not among the sources.  It is
    a pure function that flattens the batch into rows, tags every row with
    the grouping identifier of its resource and of its scope, and reorders
    the rows so that those of one resource and scope are contiguous and,
    within a scope, ordered by a configurable key, ties in their original
    order; it drops, duplicates and alters no row.  How an identifier is
    derived from a resource or a scope is not specified, so both
    derivations are fields. *)
Record MetricsOptimizer : Type := {
  sorter : FlattenedMetric → FlattenedMetric → bool;   (* Less *)
  resource_id : pcommon.Resource → string → string;
  scope_id : pcommon.InstrumentationScope → string → string
}.

Definition flatten_scope (o : MetricsOptimizer) (rm : pmetric.ResourceMetrics)
    (sm : pmetric.ScopeMetrics) : list FlattenedMetric :=
  map (λ m,
        {| ResourceMetricsID :=
             resource_id o (pmetric.rm_Resource rm) (pmetric.rm_SchemaUrl rm);
           Resource := pmetric.rm_Resource rm;
           ResourceSchemaUrl := pmetric.rm_SchemaUrl rm;
           ScopeMetricsID :=
             scope_id o (pmetric.sm_Scope sm) (pmetric.sm_SchemaUrl sm);
           Scope := pmetric.sm_Scope sm;
           ScopeSchemaUrl := pmetric.sm_SchemaUrl sm;
           Metric := m |})
      (pmetric.sm_Metrics sm).

Definition flatten (o : MetricsOptimizer) (metrics : pmetric.Metrics)
    : list FlattenedMetric :=
  concat (map (λ rm, concat (map (flatten_scope o rm) (pmetric.rm_ScopeMetrics rm)))
              metrics).

(** Stable insertion: [x] goes before the first row that sorts after it
    or ties with it. *)
Fixpoint insert_row (less : FlattenedMetric → FlattenedMetric → bool)
    (x : FlattenedMetric) (rows : list FlattenedMetric) : list FlattenedMetric :=
  match rows with
  | [] => [x]
  | y :: rest => if less y x then y :: insert_row less x rest else x :: y :: rest
  end.

(** Two rows are of the same resource and scope. *)
Definition same_group (x y : FlattenedMetric) : bool :=
  String.eqb (ResourceMetricsID x) (ResourceMetricsID y)
  && String.eqb (ScopeMetricsID x) (ScopeMetricsID y).

(** [x], which precedes [rows] in the input, joins the rows of its
    resource and scope at its place among them; the group comes first, the
    other rows follow in the order they had. *)
Definition place_row (less : FlattenedMetric → FlattenedMetric → bool)
    (x : FlattenedMetric) (rows : list FlattenedMetric) : list FlattenedMetric :=
  insert_row less x (List.filter (same_group x) rows)
  ++ List.filter (λ y, negb (same_group x y)) rows.

Definition sort_rows (less : FlattenedMetric → FlattenedMetric → bool)
    (rows : list FlattenedMetric) : list FlattenedMetric :=
  foldr (place_row less) [] rows.

Definition Optimize (o : MetricsOptimizer) (metrics : pmetric.Metrics)
    : list FlattenedMetric :=
  sort_rows (sorter o) (flatten o metrics).

Definition NewMetricsOptimizer (o : MetricsOptimizer) : MetricsOptimizer := o.

(** Modelled from the spec: the analyzer (MetricsAnalyzer), which is not
    among the sources.  It is diagnostic only; here it counts the rows it
    was shown. *)
Record MetricsAnalyzer : Type := { analyzed_rows : Z }.

Definition NewMetricsAnalyzer : MetricsAnalyzer := {| analyzed_rows := 0 |}.

Definition Analyze (rows : list FlattenedMetric) (a : MetricsAnalyzer)
    : MetricsAnalyzer :=
  {| analyzed_rows := analyzed_rows a + Z.of_nat (length rows) |}.

Definition ShowStats (indent : string) (a : MetricsAnalyzer) : MetricsAnalyzer := a.


(** ** The Arrow schema of the metrics record *)

Module schema.
Inductive DataType : Type :=
| Uint16 | Uint8 | Int32 | String_ | Boolean | ResourceDT | ScopeDT.

Inductive Meta : Type := Optional | Dictionary8 | DeltaEncoding.

Definition Meta_eqb (a b : Meta) : bool :=
  match a, b with
  | Optional, Optional | Dictionary8, Dictionary8
  | DeltaEncoding, DeltaEncoding => true
  | _, _ => false
  end.

Record Field : Type := {
  Field_Name : constants.ColumnName;
  Field_Type : DataType;
  Field_Metadata : list Meta
}.

Definition Metadata (ms : list Meta) : list Meta := ms.

Definition has_meta (m : Meta) (f : Field) : bool :=
  existsb (Meta_eqb m) (Field_Metadata f).
End schema.

Definition MetricsSchema : list schema.Field :=
  [ {| schema.Field_Name := constants.ID; schema.Field_Type := schema.Uint16;
       schema.Field_Metadata := schema.Metadata [schema.DeltaEncoding] |};
    {| schema.Field_Name := constants.Resource; schema.Field_Type := schema.ResourceDT;
       schema.Field_Metadata := schema.Metadata [schema.Optional] |};
    {| schema.Field_Name := constants.Scope; schema.Field_Type := schema.ScopeDT;
       schema.Field_Metadata := schema.Metadata [schema.Optional] |};
    {| schema.Field_Name := constants.SchemaUrl; schema.Field_Type := schema.String_;
       schema.Field_Metadata := schema.Metadata [schema.Optional; schema.Dictionary8] |};
    {| schema.Field_Name := constants.MetricType; schema.Field_Type := schema.Uint8;
       schema.Field_Metadata := [] |};
    {| schema.Field_Name := constants.Name; schema.Field_Type := schema.String_;
       schema.Field_Metadata := schema.Metadata [schema.Dictionary8] |};
    {| schema.Field_Name := constants.Description; schema.Field_Type := schema.String_;
       schema.Field_Metadata := schema.Metadata [schema.Optional; schema.Dictionary8] |};
    {| schema.Field_Name := constants.Unit; schema.Field_Type := schema.String_;
       schema.Field_Metadata := schema.Metadata [schema.Optional; schema.Dictionary8] |};
    {| schema.Field_Name := constants.AggregationTemporality;
       schema.Field_Type := schema.Int32;
       schema.Field_Metadata := schema.Metadata [schema.Optional; schema.Dictionary8] |};
    {| schema.Field_Name := constants.IsMonotonic; schema.Field_Type := schema.Boolean;
       schema.Field_Metadata := schema.Metadata [schema.Optional] |} ].

(** The schema's entry for a column. *)
Definition schema_field (c : constants.ColumnName) : option schema.Field :=
  find (λ f, constants.eqb (schema.Field_Name f) c) MetricsSchema.

(** ** The column builders (package builder and the carrow struct builders) *)

(** One entry of a column; a null entry is [None]. *)
Inductive Cell : Type :=
| CUint16 (v : Z)
| CUint8 (v : Z)
| CInt32 (v : Z)
| CString (s : string)
| CBool (b : bool)
| CResource (attrs_id : Z) (schema_url : option string) (dropped : Z)
| CScope (name version : option string) (attrs_id : Z) (dropped : Z).

Abbreviation Column := (list (option Cell)).
Definition Columns : Type := constants.ColumnName → Column.

Definition no_columns : Columns := λ _, [].

(** The entries column [d] gains when [entry] is appended to column [c]. *)
Definition gain (c : constants.ColumnName) (entry : option Cell)
    (d : constants.ColumnName) : Column :=
  if constants.eqb d c then [entry] else [].

(** Append one entry to the named column. *)
Definition push (c : constants.ColumnName) (entry : option Cell) (cols : Columns)
    : Columns :=
  λ d, cols d ++ gain c entry d.

(** Modelled from the spec: the record builder (RecordBuilderExt), which is
    not among the sources.  It owns the per-column builders and their
    buffered entries.  A build error re-creates the column builders, which
    is counted by [rbe_epoch]; whether a value is accepted by the underlying
    library, and whether the builders of a generation can materialise their
    entries, is not specified, so both tests are fields.
    [rbe_released] counts the Release calls that reached it. *)
Record RecordBuilderExt : Type := {
  rbe_epoch : nat;
  rbe_columns : Columns;
  rbe_max_delta : option Z;
  rbe_accepts : constants.ColumnName → Cell → bool;
  rbe_materializes : nat → Columns → bool;
  rbe_released : nat
}.

Definition with_columns (cols : Columns) (r : RecordBuilderExt) : RecordBuilderExt :=
  {| rbe_epoch := rbe_epoch r; rbe_columns := cols;
     rbe_max_delta := rbe_max_delta r; rbe_accepts := rbe_accepts r;
     rbe_materializes := rbe_materializes r; rbe_released := rbe_released r |}.

(** A pointer to one of the record builder's column builders: the column
    it was asked for and the generation it was obtained in. *)
Record Handle : Type := { h_column : constants.ColumnName; h_epoch : nat }.

(** The column a handle still reaches: none when the pointer is nil or the
    builder behind it has been replaced since. *)
Definition target (h : option Handle) (r : RecordBuilderExt)
    : option constants.ColumnName :=
  match h with
  | Some h => if Nat.eqb (h_epoch h) (rbe_epoch r) then Some (h_column h) else None
  | None => None
  end.

Definition column_builder (name : constants.ColumnName) (r : RecordBuilderExt)
    : option Handle :=
  Some {| h_column := name; h_epoch := rbe_epoch r |}.

Definition Uint16DeltaBuilder := column_builder.
Definition StructBuilder := column_builder.
Definition StringBuilder := column_builder.
Definition Uint8Builder := column_builder.
Definition Int32Builder := column_builder.
Definition BooleanBuilder := column_builder.
Definition ResourceBuilderFrom (h : option Handle) : option Handle := h.
Definition ScopeBuilderFrom (h : option Handle) : option Handle := h.

(** Modelled from the spec: append_typed(column, value | null) appends one
    value or null to the column.  An append through a pointer that no
    longer reaches a column of the record builder leaves its columns as
    they are. *)
Definition append_entry (h : option Handle) (entry : option Cell)
    (r : RecordBuilderExt) : RecordBuilderExt :=
  match target h r with
  | Some c => with_columns (push c entry (rbe_columns r)) r
  | None => r
  end.

Definition SetMaxDelta (h : option Handle) (d : Z) (r : RecordBuilderExt)
    : RecordBuilderExt :=
  match target h r with
  | Some _ =>
      {| rbe_epoch := rbe_epoch r; rbe_columns := rbe_columns r;
         rbe_max_delta := Some d; rbe_accepts := rbe_accepts r;
         rbe_materializes := rbe_materializes r; rbe_released := rbe_released r |}
  | None => r
  end.

Definition Uint16Delta_Append (h : option Handle) (v : Z) :=
  append_entry h (Some (CUint16 v)).
Definition Uint8_Append (h : option Handle) (v : Z) :=
  append_entry h (Some (CUint8 v)).
Definition Int32_Append (h : option Handle) (v : Z) :=
  append_entry h (Some (CInt32 v)).
Definition Boolean_Append (h : option Handle) (v : bool) :=
  append_entry h (Some (CBool v)).
Definition AppendNull (h : option Handle) := append_entry h None.

(** Modelled from the spec: StringBuilder.AppendNonEmpty, not among the
    sources: the column gets null when the string is absent (empty). *)
Definition non_empty (s : string) : option string :=
  if String.eqb s "" then None else Some s.

Definition AppendNonEmpty (h : option Handle) (s : string) :=
  append_entry h (CString <$> non_empty s).

(** Modelled from the spec: the resource and scope struct builders
    (carrow.ResourceBuilder.AppendWithID, carrow.ScopeBuilder.AppendWithAttrsID),
    not among the sources: they write the attribute-set id, not the
    attributes, into the struct column, and fail when the underlying column
    rejects the value. *)
Definition append_struct (h : option Handle) (cell : Cell) (r : RecordBuilderExt)
    : option error * RecordBuilderExt :=
  match target h r with
  | Some c =>
      if rbe_accepts r c cell
      then (None, with_columns (push c (Some cell) (rbe_columns r)) r)
      else (Some ErrColumnAppend, r)
  | None => (None, r)
  end.

Definition AppendWithID (h : option Handle) (attrsID : Z)
    (resource : pcommon.Resource) (schemaUrl : string) :=
  append_struct h
    (CResource attrsID (non_empty schemaUrl)
       (pcommon.Resource_DroppedAttributesCount resource)).

Definition AppendWithAttrsID (h : option Handle) (attrsID : Z)
    (scope : pcommon.InstrumentationScope) :=
  append_struct h
    (CScope (non_empty (pcommon.Scope_Name scope))
       (non_empty (pcommon.Scope_Version scope)) attrsID
       (pcommon.Scope_DroppedAttributesCount scope)).

(** Modelled from the spec: reserve(n) is a performance hint with no
    effect on the contents. *)
Definition Reserve (n : nat) (r : RecordBuilderExt) : RecordBuilderExt := r.

(** Modelled from the spec: build() materializes an immutable batch from
    the buffered entries and resets the column builders; on a build error
    the unbuilt rows are lost and the column builders are re-created. *)
Definition NewRecord (r : RecordBuilderExt) : (error + Columns) * RecordBuilderExt :=
  if rbe_materializes r (rbe_epoch r) (rbe_columns r)
  then (inr (rbe_columns r), with_columns no_columns r)
  else (inl ErrBuildFailure,
        {| rbe_epoch := S (rbe_epoch r); rbe_columns := no_columns;
           rbe_max_delta := None; rbe_accepts := rbe_accepts r;
           rbe_materializes := rbe_materializes r;
           rbe_released := rbe_released r |}).

(** Modelled from the spec: release() frees the column memory. *)
Definition RecordBuilderExt_Release (r : RecordBuilderExt) : RecordBuilderExt :=
  {| rbe_epoch := rbe_epoch r; rbe_columns := no_columns;
     rbe_max_delta := rbe_max_delta r; rbe_accepts := rbe_accepts r;
     rbe_materializes := rbe_materializes r;
     rbe_released := S (rbe_released r) |}.

(** ** Related data: the correlation accumulators *)

(** Modelled from the spec: the attribute accumulator, not among the
    sources.  An append takes an attribute set and returns an id for it;
    it fails when the underlying column rejects the set, in which case
    nothing is stored.  Which id an append returns is not specified
    beyond its being the id of an equivalent set already seen or a new
    one, so the choice is a field: a function of the appends so far and of
    the set.  [acc_calls] records the appends so far, each as the id
    returned and the set given. *)
Record AttributesAccumulator : Type := {
  acc_calls : list (Z * pcommon.Map);
  acc_accepts : pcommon.Map → bool;
  acc_next_id : list (Z * pcommon.Map) → pcommon.Map → Z
}.

Definition Accumulator_Append (attrs : pcommon.Map) (acc : AttributesAccumulator)
    : (error + Z) * AttributesAccumulator :=
  if acc_accepts acc attrs
  then let id := acc_next_id acc (acc_calls acc) attrs in
       (inr id,
        {| acc_calls := acc_calls acc ++ [(id, attrs)];
           acc_accepts := acc_accepts acc; acc_next_id := acc_next_id acc |})
  else (inl ErrColumnAppend, acc).

(** Modelled from the spec: RelatedData, not among the sources.  One
    attribute accumulator for resources and one for scopes, and one table
    per data-point kind whose rows carry the parent row id as foreign key;
    data points are always appended.  [rd_released] counts the Release
    calls that reached it. *)
Record RelatedData : Type := {
  rd_resource : AttributesAccumulator;
  rd_scope : AttributesAccumulator;
  rd_number : list (Z * pmetric.NumberDataPoint);
  rd_summary : list (Z * pmetric.SummaryDataPoint);
  rd_histogram : list (Z * pmetric.HistogramDataPoint);
  rd_ehistogram : list (Z * pmetric.ExponentialHistogramDataPoint);
  rd_released : nat
}.

Definition with_resource (acc : AttributesAccumulator) (rd : RelatedData) :=
  {| rd_resource := acc; rd_scope := rd_scope rd; rd_number := rd_number rd;
     rd_summary := rd_summary rd; rd_histogram := rd_histogram rd;
     rd_ehistogram := rd_ehistogram rd; rd_released := rd_released rd |}.

Definition with_scope (acc : AttributesAccumulator) (rd : RelatedData) :=
  {| rd_resource := rd_resource rd; rd_scope := acc; rd_number := rd_number rd;
     rd_summary := rd_summary rd; rd_histogram := rd_histogram rd;
     rd_ehistogram := rd_ehistogram rd; rd_released := rd_released rd |}.

Definition NumberDP_Append (ID : Z) (dp : pmetric.NumberDataPoint) (rd : RelatedData) :=
  {| rd_resource := rd_resource rd; rd_scope := rd_scope rd;
     rd_number := rd_number rd ++ [(ID, dp)];
     rd_summary := rd_summary rd; rd_histogram := rd_histogram rd;
     rd_ehistogram := rd_ehistogram rd; rd_released := rd_released rd |}.

Definition SummaryDP_Append (ID : Z) (dps : list pmetric.SummaryDataPoint)
    (rd : RelatedData) :=
  {| rd_resource := rd_resource rd; rd_scope := rd_scope rd;
     rd_number := rd_number rd;
     rd_summary := rd_summary rd ++ map (pair ID) dps;
     rd_histogram := rd_histogram rd;
     rd_ehistogram := rd_ehistogram rd; rd_released := rd_released rd |}.

Definition HistogramDP_Append (ID : Z) (dps : list pmetric.HistogramDataPoint)
    (rd : RelatedData) :=
  {| rd_resource := rd_resource rd; rd_scope := rd_scope rd;
     rd_number := rd_number rd; rd_summary := rd_summary rd;
     rd_histogram := rd_histogram rd ++ map (pair ID) dps;
     rd_ehistogram := rd_ehistogram rd; rd_released := rd_released rd |}.

Definition EHistogramDP_Append (ID : Z)
    (dps : list pmetric.ExponentialHistogramDataPoint) (rd : RelatedData) :=
  {| rd_resource := rd_resource rd; rd_scope := rd_scope rd;
     rd_number := rd_number rd; rd_summary := rd_summary rd;
     rd_histogram := rd_histogram rd;
     rd_ehistogram := rd_ehistogram rd ++ map (pair ID) dps;
     rd_released := rd_released rd |}.

(** Modelled from the spec: release() releases all accumulated
    sub-tables. *)
Definition release_accumulator (acc : AttributesAccumulator) : AttributesAccumulator :=
  {| acc_calls := []; acc_accepts := acc_accepts acc;
     acc_next_id := acc_next_id acc |}.

Definition RelatedData_Release (rd : RelatedData) : RelatedData :=
  {| rd_resource := release_accumulator (rd_resource rd);
     rd_scope := release_accumulator (rd_scope rd);
     rd_number := []; rd_summary := []; rd_histogram := []; rd_ehistogram := [];
     rd_released := S (rd_released rd) |}.

(** Modelled from the spec: the configuration surface (Config,
    ProducerStats, NewRelatedData), not among the sources: the optimizer's
    settings, the limits of the attribute tables, as the acceptance test
    they induce, their choice of ids, and the flag that enables the
    analyzer.  NewRelatedData returns an error besides the related data;
    when it fails is not specified, so its error is a field too. *)
Record Config : Type := {
  Metric_Sorter : MetricsOptimizer;
  Attrs_Accepts : pcommon.Map → bool;
  Attrs_NextID : list (Z * pcommon.Map) → pcommon.Map → Z;
  RelatedData_Error : option error
}.

Record ProducerStats : Type := { SchemaStatsEnabled : bool }.

(** The related data of a configuration, with nothing accumulated. *)
Definition empty_related_data (cfg : Config) : RelatedData :=
  {| rd_resource := {| acc_calls := []; acc_accepts := Attrs_Accepts cfg;
                       acc_next_id := Attrs_NextID cfg |};
     rd_scope := {| acc_calls := []; acc_accepts := Attrs_Accepts cfg;
                    acc_next_id := Attrs_NextID cfg |};
     rd_number := []; rd_summary := []; rd_histogram := []; rd_ehistogram := [];
     rd_released := 0 |}.

Definition NewRelatedData (cfg : Config) (stats : ProducerStats)
    : error + RelatedData :=
  match RelatedData_Error cfg with
  | Some err => inl err
  | None => inr (empty_related_data cfg)
  end.

(** What a call that may panic comes to: the values it returns, or the
    error it panics with. *)
Inductive Outcome (A : Type) : Type :=
| Returned (a : A)
| Panicked (err : error).

Arguments Returned {A} a.
Arguments Panicked {A} err.

(** ** MetricsBuilder *)

Record MetricsBuilder : Type := {
  released : bool;
  builder : RecordBuilderExt;   (* record builder *)
  rb : option Handle;           (* resource builder *)
  scb : option Handle;          (* scope builder *)
  sschb : option Handle;        (* scope schema_url builder *)
  ib : option Handle;           (* id builder *)
  mtb : option Handle;          (* metric type builder *)
  nb : option Handle;           (* metric name builder *)
  db : option Handle;           (* metric description builder *)
  ub : option Handle;           (* metric unit builder *)
  atb : option Handle;          (* aggregation temporality builder *)
  imb : option Handle;          (* is monotonic builder *)
  optimizer : MetricsOptimizer;
  analyzer : option MetricsAnalyzer;
  relatedData : RelatedData
}.

Definition with_builder (r : RecordBuilderExt) (b : MetricsBuilder) : MetricsBuilder :=
  {| released := released b; builder := r; rb := rb b; scb := scb b;
     sschb := sschb b; ib := ib b; mtb := mtb b; nb := nb b; db := db b;
     ub := ub b; atb := atb b; imb := imb b; optimizer := optimizer b;
     analyzer := analyzer b; relatedData := relatedData b |}.

Definition with_relatedData (rd : RelatedData) (b : MetricsBuilder) : MetricsBuilder :=
  {| released := released b; builder := builder b; rb := rb b; scb := scb b;
     sschb := sschb b; ib := ib b; mtb := mtb b; nb := nb b; db := db b;
     ub := ub b; atb := atb b; imb := imb b; optimizer := optimizer b;
     analyzer := analyzer b; relatedData := rd |}.

Definition with_analyzer (a : option MetricsAnalyzer) (b : MetricsBuilder)
    : MetricsBuilder :=
  {| released := released b; builder := builder b; rb := rb b; scb := scb b;
     sschb := sschb b; ib := ib b; mtb := mtb b; nb := nb b; db := db b;
     ub := ub b; atb := atb b; imb := imb b; optimizer := optimizer b;
     analyzer := a; relatedData := relatedData b |}.

(** [init] fetches the column builders from the record builder; it always
    returns nil. *)
Definition init (b : MetricsBuilder) : option error * MetricsBuilder :=
  let ib' := Uint16DeltaBuilder constants.ID (builder b) in
  (* As metrics are sorted before insertion, the delta between two
     consecutive ids should always be <= 1. *)
  let r := SetMaxDelta ib' 1 (builder b) in
  (None,
   {| released := released b;
      builder := r;
      ib := ib';
      rb := ResourceBuilderFrom (StructBuilder constants.Resource r);
      scb := ScopeBuilderFrom (StructBuilder constants.Scope r);
      sschb := StringBuilder constants.SchemaUrl r;
      mtb := Uint8Builder constants.MetricType r;
      nb := StringBuilder constants.Name r;
      db := StringBuilder constants.Description r;
      ub := StringBuilder constants.Unit r;
      atb := Int32Builder constants.AggregationTemporality r;
      imb := BooleanBuilder constants.IsMonotonic r;
      optimizer := optimizer b;
      analyzer := analyzer b;
      relatedData := relatedData b |}).

(** The builder as NewMetricsBuilder assembles it, before [init]. *)
Definition assembled (rBuilder : RecordBuilderExt) (cfg : Config)
    (stats : ProducerStats) (relatedData : RelatedData) : MetricsBuilder :=
  let optimizer := NewMetricsOptimizer (Metric_Sorter cfg) in
  let analyzer :=
    if SchemaStatsEnabled stats then Some NewMetricsAnalyzer else None in
  {| released := false; builder := rBuilder;
     rb := None; scb := None; sschb := None; ib := None; mtb := None;
     nb := None; db := None; ub := None; atb := None; imb := None;
     optimizer := optimizer; analyzer := analyzer;
     relatedData := relatedData |}.

(** NewMetricsBuilder panics when NewRelatedData fails; otherwise it
    returns the builder [init] has run on, or the error of [init]. *)
Definition NewMetricsBuilder (rBuilder : RecordBuilderExt) (cfg : Config)
    (stats : ProducerStats) : Outcome (error + MetricsBuilder) :=
  match NewRelatedData cfg stats with
  | inl err => Panicked err
  | inr relatedData =>
      let b := assembled rBuilder cfg stats relatedData in
      match init b with
      | (Some err, _) => Returned (inl (werror.Wrap err))
      | (None, b) => Returned (inr b)
      end
  end.

(** Build builds an Arrow record from the builder. *)
Definition Build (b : MetricsBuilder) : (error + Columns) * MetricsBuilder :=
  if released b then (inl (werror.Wrap ErrBuilderAlreadyReleased), b)
  else
    match NewRecord (builder b) with
    | (inr record, r) => (inr record, with_builder r b)
    | (inl err, r) =>
        match init (with_builder r b) with
        | (Some initErr, b) => (inl (werror.Wrap initErr), b)
        | (None, b) => (inl err, b)
        end
    end.

(** The local variables of [Append]'s loop. *)
Record Locals : Type := {
  metricID : Z;              (* uint16 *)
  resMetricsID : string;
  scopeMetricsID : string;
  resID : Z;                 (* int64 *)
  scopeID : Z                (* int64 *)
}.

Definition on_builder (f : RecordBuilderExt → RecordBuilderExt) (b : MetricsBuilder)
    : MetricsBuilder :=
  with_builder (f (builder b)) b.

Definition on_relatedData (f : RelatedData → RelatedData) (b : MetricsBuilder)
    : MetricsBuilder :=
  with_relatedData (f (relatedData b)) b.

(** The outcome of a step of the loop: the error returned, if any, and the
    locals and the builder as the step leaves them. *)
Definition Step : Type := option error * Locals * MetricsBuilder.

(** Resource spans: a new id is asked of the accumulator when the row's
    resource-metrics id differs from the tracked one. *)
Definition resource_group (metric : FlattenedMetric) (l : Locals) (b : MetricsBuilder)
    : Step :=
  if negb (String.eqb (resMetricsID l) (ResourceMetricsID metric)) then
    let l := {| metricID := metricID l;
                resMetricsID := ResourceMetricsID metric;
                scopeMetricsID := scopeMetricsID l;
                resID := resID l; scopeID := scopeID l |} in
    match Accumulator_Append (pcommon.Resource_Attributes (Resource metric))
                             (rd_resource (relatedData b)) with
    | (inl err, acc) =>
        (Some (werror.Wrap err), l, on_relatedData (with_resource acc) b)
    | (inr id, acc) =>
        (None,
         {| metricID := metricID l; resMetricsID := resMetricsID l;
            scopeMetricsID := scopeMetricsID l; resID := id;
            scopeID := scopeID l |},
         on_relatedData (with_resource acc) b)
    end
  else (None, l, b).

(** Scope spans: the same for the scope-metrics id. *)
Definition scope_group (metric : FlattenedMetric) (l : Locals) (b : MetricsBuilder)
    : Step :=
  if negb (String.eqb (scopeMetricsID l) (ScopeMetricsID metric)) then
    let l := {| metricID := metricID l;
                resMetricsID := resMetricsID l;
                scopeMetricsID := ScopeMetricsID metric;
                resID := resID l; scopeID := scopeID l |} in
    match Accumulator_Append (pcommon.Scope_Attributes (Scope metric))
                             (rd_scope (relatedData b)) with
    | (inl err, acc) =>
        (Some (werror.Wrap err), l, on_relatedData (with_scope acc) b)
    | (inr id, acc) =>
        (None,
         {| metricID := metricID l; resMetricsID := resMetricsID l;
            scopeMetricsID := scopeMetricsID l; resID := resID l;
            scopeID := id |},
         on_relatedData (with_scope acc) b)
    end
  else (None, l, b).

(** The switch on the metric type. *)
Definition append_kind (ID : Z) (m : pmetric.Metric) (b : MetricsBuilder)
    : MetricsBuilder :=
  let t := pmetric.Type_ m in
  if t =? pmetric.MetricTypeGauge then
    let b := on_builder (AppendNull (atb b)) b in
    let b := on_builder (AppendNull (imb b)) b in
    let dps := pmetric.Gauge_DataPoints (pmetric.GetGauge m) in
    foldl (λ b dp, on_relatedData (NumberDP_Append ID dp) b) b dps
  else if t =? pmetric.MetricTypeSum then
    let sum := pmetric.GetSum m in
    let b := on_builder (Int32_Append (atb b) (pmetric.Sum_AggregationTemporality sum)) b in
    let b := on_builder (Boolean_Append (imb b) (pmetric.Sum_IsMonotonic sum)) b in
    let dps := pmetric.Sum_DataPoints sum in
    foldl (λ b dp, on_relatedData (NumberDP_Append ID dp) b) b dps
  else if t =? pmetric.MetricTypeSummary then
    let b := on_builder (AppendNull (atb b)) b in
    let b := on_builder (AppendNull (imb b)) b in
    let dps := pmetric.Summary_DataPoints (pmetric.GetSummary m) in
    on_relatedData (SummaryDP_Append ID dps) b
  else if t =? pmetric.MetricTypeHistogram then
    let histogram := pmetric.GetHistogram m in
    let b := on_builder
               (Int32_Append (atb b) (pmetric.Histogram_AggregationTemporality histogram))
               b in
    let b := on_builder (AppendNull (imb b)) b in
    let dps := pmetric.Histogram_DataPoints histogram in
    on_relatedData (HistogramDP_Append ID dps) b
  else if t =? pmetric.MetricTypeExponentialHistogram then
    let exponentialHistogram := pmetric.GetExponentialHistogram m in
    let b := on_builder
               (Int32_Append (atb b)
                  (pmetric.ExponentialHistogram_AggregationTemporality
                     exponentialHistogram))
               b in
    let b := on_builder (AppendNull (imb b)) b in
    let dps := pmetric.ExponentialHistogram_DataPoints exponentialHistogram in
    on_relatedData (EHistogramDP_Append ID dps) b
  else if t =? pmetric.MetricTypeEmpty then
    let b := on_builder (AppendNull (atb b)) b in
    on_builder (AppendNull (imb b)) b
  else
    (* default: ToDo should log and ignore unknown metric types. *)
    b.

(** The body of the loop over the optimized rows. *)
Definition append_metric (metric : FlattenedMetric) (l : Locals) (b : MetricsBuilder)
    : Step :=
  let ID := metricID l in
  let b := on_builder (Uint16Delta_Append (ib b) ID) b in
  let l := {| metricID := uint16 (metricID l + 1);
              resMetricsID := resMetricsID l; scopeMetricsID := scopeMetricsID l;
              resID := resID l; scopeID := scopeID l |} in
  match resource_group metric l b with
  | (Some err, l, b) => (Some err, l, b)
  | (None, l, b) =>
  match AppendWithID (rb b) (resID l) (Resource metric) (ResourceSchemaUrl metric)
                     (builder b) with
  | (Some err, r) => (Some (werror.Wrap err), l, with_builder r b)
  | (None, r) =>
  let b := with_builder r b in
  match scope_group metric l b with
  | (Some err, l, b) => (Some err, l, b)
  | (None, l, b) =>
  match AppendWithAttrsID (scb b) (scopeID l) (Scope metric) (builder b) with
  | (Some err, r) => (Some (werror.Wrap err), l, with_builder r b)
  | (None, r) =>
  let b := with_builder r b in
  let b := on_builder (AppendNonEmpty (sschb b) (ScopeSchemaUrl metric)) b in
  (* Metric type is an int32 in the proto spec, but we don't expect more
     than 256 types, so we use an uint8 instead. *)
  let b := on_builder (Uint8_Append (mtb b) (uint8 (pmetric.Type_ (Metric metric)))) b in
  let b := on_builder (AppendNonEmpty (nb b) (pmetric.Name (Metric metric))) b in
  let b := on_builder (AppendNonEmpty (db b) (pmetric.Description (Metric metric))) b in
  let b := on_builder (AppendNonEmpty (ub b) (pmetric.Unit (Metric metric))) b in
  (None, l, append_kind ID (Metric metric) b)
  end end end end.

Fixpoint append_metrics (rows : list FlattenedMetric) (l : Locals) (b : MetricsBuilder)
    : Step :=
  match rows with
  | [] => (None, l, b)
  | metric :: rest =>
      match append_metric metric l b with
      | (Some err, l, b) => (Some err, l, b)
      | (None, l, b) => append_metrics rest l b
      end
  end.

Definition initial_locals : Locals :=
  {| metricID := 0; resMetricsID := ""; scopeMetricsID := "";
     resID := 0; scopeID := 0 |}.

(** Append appends a new set of resource metrics to the builder. *)
Definition Append (b : MetricsBuilder) (metrics : pmetric.Metrics)
    : option error * MetricsBuilder :=
  if released b then (Some (werror.Wrap ErrBuilderAlreadyReleased), b)
  else
    let optimizedMetrics := Optimize (optimizer b) metrics in
    let b :=
      match analyzer b with
      | Some a => with_analyzer (Some (ShowStats "" (Analyze optimizedMetrics a))) b
      | None => b
      end in
    let b := on_builder (Reserve (length optimizedMetrics)) b in
    match append_metrics optimizedMetrics initial_locals b with
    | (err, _, b) => (err, b)
    end.

(** Release releases the memory allocated by the builder. *)
Definition Release (b : MetricsBuilder) : MetricsBuilder :=
  if negb (released b) then
    {| released := true;
       builder := RecordBuilderExt_Release (builder b);
       rb := rb b; scb := scb b; sschb := sschb b; ib := ib b; mtb := mtb b;
       nb := nb b; db := db b; ub := ub b; atb := atb b; imb := imb b;
       optimizer := optimizer b; analyzer := analyzer b;
       relatedData := RelatedData_Release (relatedData b) |}
  else b.

(** The entries of a column of the builder's record. *)
Definition column (c : constants.ColumnName) (b : MetricsBuilder) : Column :=
  rbe_columns (builder b) c.

(** ** Well-initialised builders *)

(** The builder is as [init] leaves it: its ten pointers reach the current
    column builders of its record builder and the id column's maximum
    delta is set. *)
Definition initialised (b : MetricsBuilder) : Prop := snd (init b) = b.

(** The builder is ready: each of its ten pointers reaches the current
    builder of its column in the record builder, and the id column's
    maximum delta is 1. *)
Record Ready (b : MetricsBuilder) : Prop := {
  ready_ib : target (ib b) (builder b) = Some constants.ID;
  ready_rb : target (rb b) (builder b) = Some constants.Resource;
  ready_scb : target (scb b) (builder b) = Some constants.Scope;
  ready_sschb : target (sschb b) (builder b) = Some constants.SchemaUrl;
  ready_mtb : target (mtb b) (builder b) = Some constants.MetricType;
  ready_nb : target (nb b) (builder b) = Some constants.Name;
  ready_db : target (db b) (builder b) = Some constants.Description;
  ready_ub : target (ub b) (builder b) = Some constants.Unit;
  ready_atb : target (atb b) (builder b) = Some constants.AggregationTemporality;
  ready_imb : target (imb b) (builder b) = Some constants.IsMonotonic;
  ready_max_delta : rbe_max_delta (builder b) = Some 1
}.

(** Append [entry] to column [c] of the builder's record. *)
Definition put (c : constants.ColumnName) (entry : option Cell) (b : MetricsBuilder)
    : MetricsBuilder :=
  with_builder (with_columns (push c entry (rbe_columns (builder b))) (builder b)) b.


(** The entries the switch on the metric type appends, per column. *)
Definition kind_entries (m : pmetric.Metric) (d : constants.ColumnName) : Column :=
  match pmetric.Data m with
  | pmetric.DataGauge _ | pmetric.DataSummary _ | pmetric.DataEmpty =>
      gain constants.AggregationTemporality None d
      ++ gain constants.IsMonotonic None d
  | pmetric.DataSum s =>
      gain constants.AggregationTemporality
           (Some (CInt32 (pmetric.Sum_AggregationTemporality s))) d
      ++ gain constants.IsMonotonic (Some (CBool (pmetric.Sum_IsMonotonic s))) d
  | pmetric.DataHistogram h =>
      gain constants.AggregationTemporality
           (Some (CInt32 (pmetric.Histogram_AggregationTemporality h))) d
      ++ gain constants.IsMonotonic None d
  | pmetric.DataExponentialHistogram e =>
      gain constants.AggregationTemporality
           (Some (CInt32 (pmetric.ExponentialHistogram_AggregationTemporality e))) d
      ++ gain constants.IsMonotonic None d
  | pmetric.DataOther _ => []
  end.

(** The entries one successful iteration of the loop appends, per column,
    for the row id and the resource and scope ids current in it. *)
Definition row_entries (ID rid sid : Z) (metric : FlattenedMetric)
    (d : constants.ColumnName) : Column :=
  gain constants.ID (Some (CUint16 ID)) d
  ++ gain constants.Resource
       (Some (CResource rid (non_empty (ResourceSchemaUrl metric))
                (pcommon.Resource_DroppedAttributesCount (Resource metric)))) d
  ++ gain constants.Scope
       (Some (CScope (non_empty (pcommon.Scope_Name (Scope metric)))
                (non_empty (pcommon.Scope_Version (Scope metric))) sid
                (pcommon.Scope_DroppedAttributesCount (Scope metric)))) d
  ++ gain constants.SchemaUrl (CString <$> non_empty (ScopeSchemaUrl metric)) d
  ++ gain constants.MetricType
       (Some (CUint8 (uint8 (pmetric.Type_ (Metric metric))))) d
  ++ gain constants.Name (CString <$> non_empty (pmetric.Name (Metric metric))) d
  ++ gain constants.Description
       (CString <$> non_empty (pmetric.Description (Metric metric))) d
  ++ gain constants.Unit (CString <$> non_empty (pmetric.Unit (Metric metric))) d
  ++ kind_entries (Metric metric) d.

(** What a step leaves alone and what it adds to the columns. *)
Record Effect (delta : constants.ColumnName → Column) (b b' : MetricsBuilder)
    : Prop := {
  eff_ready : Ready b → Ready b';
  eff_released : released b' = released b;
  eff_accepts : rbe_accepts (builder b') = rbe_accepts (builder b);
  eff_columns : ∀ d, column d b' = column d b ++ delta d
}.

(** How a group check moves the current id and the accumulator: nothing
    changes when the row's grouping identifier is the tracked one,
    otherwise the accumulator is given the attribute set and the id it
    returns becomes current. *)
Definition group_step (prev key : string) (cur : Z) (acc : AttributesAccumulator)
    (attrs : pcommon.Map) (cur' : Z) (acc' : AttributesAccumulator) : Prop :=
  acc_accepts acc' = acc_accepts acc ∧
  acc_next_id acc' = acc_next_id acc ∧
  if String.eqb prev key
  then cur' = cur ∧ acc_calls acc' = acc_calls acc
  else cur' = acc_next_id acc (acc_calls acc) attrs
       ∧ acc_calls acc' = acc_calls acc ++ [(cur', attrs)].

(** The rows [Append] iterates over. *)
Definition rows_of (b : MetricsBuilder) (metrics : pmetric.Metrics)
    : list FlattenedMetric :=
  Optimize (optimizer b) metrics.

(** The id entries of [n] consecutive rows, the first with id [start]. *)
Definition id_entries (start : Z) (n : nat) : Column :=
  (λ i : nat, Some (CUint16 (uint16 (start + Z.of_nat i)))) <$> seq 0 n.

(** The builder as the loop of [Append] finds it. *)
Definition entering (b : MetricsBuilder) (metrics : pmetric.Metrics) : MetricsBuilder :=
  let optimizedMetrics := Optimize (optimizer b) metrics in
  let b :=
    match analyzer b with
    | Some a => with_analyzer (Some (ShowStats "" (Analyze optimizedMetrics a))) b
    | None => b
    end in
  on_builder (Reserve (length optimizedMetrics)) b.

(** Some value can be refused: by the resource accumulator, by the scope
    accumulator or by a column of the record builder. *)
Definition refuses (b : MetricsBuilder) : Prop :=
  (∃ a, acc_accepts (rd_resource (relatedData b)) a = false)
  ∨ (∃ a, acc_accepts (rd_scope (relatedData b)) a = false)
  ∨ (∃ c cell, rbe_accepts (builder b) c cell = false).

(** ** Example builders and batches *)

Definition render (attrs : pcommon.Map) : string :=
  String.concat ";"
    (map (λ kv, String.append (fst kv)
                  (String.append "="
                     match snd kv with
                     | pcommon.ValueStr s => s
                     | pcommon.ValueInt _ => "int"
                     | pcommon.ValueBool _ => "bool"
                     end))
         attrs).

(** Rows sorted by metric name; group identifiers rendered from the
    schema URL and the attributes or the scope name. *)
Definition by_name : MetricsOptimizer :=
  {| sorter := λ x y, String.ltb (pmetric.Name (Metric x)) (pmetric.Name (Metric y));
     resource_id := λ r url,
       String.append "res:" (String.append url
         (String.append "|" (render (pcommon.Resource_Attributes r))));
     scope_id := λ s url,
       String.append "scope:" (String.append (pcommon.Scope_Name s)
         (String.append "|" url)) |}.

(** A record builder that accepts every value and every record. *)
Definition open_record_builder : RecordBuilderExt :=
  {| rbe_epoch := 0; rbe_columns := no_columns; rbe_max_delta := None;
     rbe_accepts := λ _ _, true; rbe_materializes := λ _ _, true;
     rbe_released := 0 |}.

(** A record builder whose first generation of column builders cannot
    materialise a record. *)
Definition outdated_record_builder : RecordBuilderExt :=
  {| rbe_epoch := 0; rbe_columns := no_columns; rbe_max_delta := None;
     rbe_accepts := λ _ _, true;
     rbe_materializes := λ epoch _, negb (Nat.eqb epoch 0);
     rbe_released := 0 |}.

(** An attribute table that numbers its sets from 0 in the order it is
    given them, a new id at each append. *)
Definition by_position (calls : list (Z * pcommon.Map)) (attrs : pcommon.Map) : Z :=
  Z.of_nat (length calls).

Definition example_config : Config :=
  {| Metric_Sorter := by_name; Attrs_Accepts := λ _, true;
     Attrs_NextID := by_position; RelatedData_Error := None |}.

Definition example_stats : ProducerStats := {| SchemaStatsEnabled := false |}.

(** The builder NewMetricsBuilder makes of a record builder under a
    configuration with which NewRelatedData succeeds. *)
Definition builder_with (cfg : Config) (r : RecordBuilderExt) : MetricsBuilder :=
  snd (init (assembled r cfg example_stats (empty_related_data cfg))).

Definition builder_on (r : RecordBuilderExt) : MetricsBuilder :=
  builder_with example_config r.

Definition example_builder : MetricsBuilder := builder_on open_record_builder.

Definition prod_resource : pcommon.Resource :=
  {| pcommon.Resource_Attributes := [("env"%string, pcommon.ValueStr "prod")];
     pcommon.Resource_DroppedAttributesCount := 0 |}.

Definition test_resource : pcommon.Resource :=
  {| pcommon.Resource_Attributes := [("env"%string, pcommon.ValueStr "test")];
     pcommon.Resource_DroppedAttributesCount := 0 |}.

Definition lib_scope : pcommon.InstrumentationScope :=
  {| pcommon.Scope_Name := "lib"; pcommon.Scope_Version := "1";
     pcommon.Scope_Attributes := []; pcommon.Scope_DroppedAttributesCount := 0 |}.

Definition a_point : pmetric.NumberDataPoint :=
  {| pmetric.ndp_Attributes := []; pmetric.ndp_Timestamp := 1; pmetric.ndp_Value := 42 |}.

Definition gauge_metric : pmetric.Metric :=
  {| pmetric.Name := "a"; pmetric.Description := ""; pmetric.Unit := "ms";
     pmetric.Data := pmetric.DataGauge {| pmetric.Gauge_DataPoints := [a_point] |} |}.

(** A monotonic sum with cumulative temporality (2). *)
Definition sum_metric : pmetric.Metric :=
  {| pmetric.Name := "b"; pmetric.Description := "requests"; pmetric.Unit := "";
     pmetric.Data :=
       pmetric.DataSum {| pmetric.Sum_AggregationTemporality := 2;
                          pmetric.Sum_IsMonotonic := true;
                          pmetric.Sum_DataPoints := [a_point; a_point] |} |}.

(** A metric whose Type() is none of the six constants; pdata hands
    [Append] no such metric. *)
Definition future_metric : pmetric.Metric :=
  {| pmetric.Name := "c"; pmetric.Description := ""; pmetric.Unit := "";
     pmetric.Data := pmetric.DataOther 1 |}.

Definition empty_metric : pmetric.Metric :=
  {| pmetric.Name := ""; pmetric.Description := ""; pmetric.Unit := "";
     pmetric.Data := pmetric.DataEmpty |}.

Definition one_scope (resource : pcommon.Resource) (ms : list pmetric.Metric)
    : pmetric.ResourceMetrics :=
  {| pmetric.rm_Resource := resource; pmetric.rm_SchemaUrl := "";
     pmetric.rm_ScopeMetrics :=
       [ {| pmetric.sm_Scope := lib_scope; pmetric.sm_SchemaUrl := "";
            pmetric.sm_Metrics := ms |} ] |}.

(** A metric whose payload is unset, or of a kind pdata does not
    recognise: pdata reports it as Empty. *)
Definition unset_metric : pmetric.Metric :=
  {| pmetric.Name := "c"; pmetric.Description := ""; pmetric.Unit := "";
     pmetric.Data := pmetric.DataEmpty |}.

(** One resource, one scope, three metrics: a gauge, a sum and one whose
    Type() is none of the six constants. *)
Definition scenario_batch : pmetric.Metrics :=
  [one_scope prod_resource [gauge_metric; sum_metric; future_metric]].

(** The same without the third metric. *)
Definition known_batch : pmetric.Metrics :=
  [one_scope prod_resource [gauge_metric; sum_metric]].

(** The same with, as third metric, one of a kind pdata does not
    recognise, as pdata hands it over. *)
Definition delivered_batch : pmetric.Metrics :=
  [one_scope prod_resource [gauge_metric; sum_metric; unset_metric]].

(** Two resources with a metric each. *)
Definition two_resources_batch : pmetric.Metrics :=
  [one_scope prod_resource [gauge_metric]; one_scope test_resource [sum_metric]].



(** A configuration under which the related data cannot be created. *)
Definition failing_config : Config :=
  {| Metric_Sorter := by_name; Attrs_Accepts := λ _, true;
     Attrs_NextID := by_position; RelatedData_Error := Some ErrColumnAppend |}.




(** One resource whose scopes come in the order B, A, B, a metric each,
    all of the same name; the metrics are told apart by their unit. *)
Definition scope_named (name : string) : pcommon.InstrumentationScope :=
  {| pcommon.Scope_Name := name; pcommon.Scope_Version := "1";
     pcommon.Scope_Attributes := []; pcommon.Scope_DroppedAttributesCount := 0 |}.

Definition metric_with_unit (unit : string) : pmetric.Metric :=
  {| pmetric.Name := "m"; pmetric.Description := ""; pmetric.Unit := unit;
     pmetric.Data := pmetric.DataEmpty |}.

Definition interleaved_batch : pmetric.Metrics :=
  [ {| pmetric.rm_Resource := prod_resource; pmetric.rm_SchemaUrl := "";
       pmetric.rm_ScopeMetrics :=
         [ {| pmetric.sm_Scope := scope_named "B"; pmetric.sm_SchemaUrl := "";
              pmetric.sm_Metrics := [metric_with_unit "1"] |};
           {| pmetric.sm_Scope := scope_named "A"; pmetric.sm_SchemaUrl := "";
              pmetric.sm_Metrics := [metric_with_unit "2"] |};
           {| pmetric.sm_Scope := scope_named "B"; pmetric.sm_SchemaUrl := "";
              pmetric.sm_Metrics := [metric_with_unit "3"] |} ] |} ].

(** One scope with 65537 metrics. *)
Definition wide_batch : pmetric.Metrics :=
  [one_scope prod_resource (repeat empty_metric (Z.to_nat 65537))].

(** ** The specification's tables *)

(** What the specification has the switch write to the
    aggregation-temporality column for a metric: [Some None] is a null
    entry, [None] is a kind the table has no line for. *)
Definition temporality_written (m : pmetric.Metric) : option (option Cell) :=
  match pmetric.Data m with
  | pmetric.DataGauge _ | pmetric.DataSummary _ | pmetric.DataEmpty => Some None
  | pmetric.DataSum s => Some (Some (CInt32 (pmetric.Sum_AggregationTemporality s)))
  | pmetric.DataHistogram h =>
      Some (Some (CInt32 (pmetric.Histogram_AggregationTemporality h)))
  | pmetric.DataExponentialHistogram e =>
      Some (Some (CInt32 (pmetric.ExponentialHistogram_AggregationTemporality e)))
  | pmetric.DataOther _ => None
  end.

(** The same for the is-monotonic column. *)
Definition monotonic_written (m : pmetric.Metric) : option (option Cell) :=
  match pmetric.Data m with
  | pmetric.DataSum s => Some (Some (CBool (pmetric.Sum_IsMonotonic s)))
  | pmetric.DataGauge _ | pmetric.DataSummary _ | pmetric.DataEmpty
  | pmetric.DataHistogram _ | pmetric.DataExponentialHistogram _ => Some None
  | pmetric.DataOther _ => None
  end.

(** A string entry as the specification has it: null for the empty
    string. *)
Definition null_when_empty (s : string) : option Cell :=
  if decide (s = ""%string) then None else Some (CString s).

(** Whether the schema marks a column optional. *)
Definition optional_in_schema (c : constants.ColumnName) : option bool :=
  schema.has_meta schema.Optional <$> schema_field c.

(** The rows at which a group starts: those whose grouping identifier
    differs from the previous row's, the first row being compared with
    [prev]. *)
Fixpoint group_starts (key : FlattenedMetric → string) (prev : string)
    (rows : list FlattenedMetric) : list FlattenedMetric :=
  match rows with
  | [] => []
  | row :: rest =>
      (if String.eqb prev (key row) then [] else [row])
      ++ group_starts key (key row) rest
  end.

(** The id current at each row when the tracked identifier is [prev], the
    current id is [cur] and [ids] are the ids the accumulator returns, one
    at each row that starts a group. *)
Fixpoint current_ids (key : FlattenedMetric → string) (prev : string) (cur : Z)
    (ids : list Z) (rows : list FlattenedMetric) : list Z :=
  match rows with
  | [] => []
  | row :: rest =>
      if String.eqb prev (key row)
      then cur :: current_ids key (key row) cur ids rest
      else match ids with
           | id :: ids => id :: current_ids key (key row) id ids rest
           | [] => cur :: current_ids key (key row) cur [] rest
           end
  end.

(** The appends an accumulator has recorded since it recorded [n]. *)
Definition calls_since (n : nat) (acc : AttributesAccumulator)
    : list (Z * pcommon.Map) :=
  drop n (acc_calls acc).

(** The entry of the resource column for a row and its resource id. *)
Definition resource_cell (id : Z) (row : FlattenedMetric) : option Cell :=
  Some (CResource id (non_empty (ResourceSchemaUrl row))
          (pcommon.Resource_DroppedAttributesCount (Resource row))).

(** The entry of the scope column for a row and its scope id. *)
Definition scope_cell (id : Z) (row : FlattenedMetric) : option Cell :=
  Some (CScope (non_empty (pcommon.Scope_Name (Scope row)))
          (non_empty (pcommon.Scope_Version (Scope row))) id
          (pcommon.Scope_DroppedAttributesCount (Scope row))).

(** ** Sequences of calls *)

(** A call of one of the three lifecycle methods. *)
Inductive Call : Type :=
| CallAppend (metrics : pmetric.Metrics)
| CallBuild
| CallRelease.

(** The builder after a call, whatever the call returned. *)
Definition call (c : Call) (b : MetricsBuilder) : MetricsBuilder :=
  match c with
  | CallAppend metrics => snd (Append b metrics)
  | CallBuild => snd (Build b)
  | CallRelease => Release b
  end.

Definition run (calls : list Call) (b : MetricsBuilder) : MetricsBuilder :=
  foldl (λ b c, call c b) b calls.

Definition is_release (c : Call) : bool :=
  match c with CallRelease => true | _ => false end.

(** ** Kinds and data points of a metric *)

(** The metric is of one of the six kinds the switch has a case for. *)
Definition handled (m : pmetric.Metric) : bool :=
  match pmetric.Data m with pmetric.DataOther _ => false | _ => true end.

(** The two columns written by the switch on the metric type. *)
Definition kind_specific (c : constants.ColumnName) : bool :=
  match c with
  | constants.AggregationTemporality | constants.IsMonotonic => true
  | _ => false
  end.

(** The number data points of a gauge or a sum. *)
Definition number_points (m : pmetric.Metric) : list pmetric.NumberDataPoint :=
  match pmetric.Data m with
  | pmetric.DataGauge g => pmetric.Gauge_DataPoints g
  | pmetric.DataSum s => pmetric.Sum_DataPoints s
  | _ => []
  end.

Definition summary_points (m : pmetric.Metric) : list pmetric.SummaryDataPoint :=
  match pmetric.Data m with
  | pmetric.DataSummary s => pmetric.Summary_DataPoints s
  | _ => []
  end.

Definition histogram_points (m : pmetric.Metric) : list pmetric.HistogramDataPoint :=
  match pmetric.Data m with
  | pmetric.DataHistogram h => pmetric.Histogram_DataPoints h
  | _ => []
  end.

Definition ehistogram_points (m : pmetric.Metric)
    : list pmetric.ExponentialHistogramDataPoint :=
  match pmetric.Data m with
  | pmetric.DataExponentialHistogram e => pmetric.ExponentialHistogram_DataPoints e
  | _ => []
  end.

(** The rows a table of data points gains from the rows of a batch: the
    points of each row in turn, each under the row's id. *)
Definition keyed_points {A : Type} (points : pmetric.Metric → list A)
    (rows : list FlattenedMetric) : list (Z * A) :=
  mjoin (imap (λ (i : nat) row, pair (uint16 (Z.of_nat i)) <$> points (Metric row))
              rows).

(** The same when the first row has id [start]. *)
Definition keyed_points_from {A : Type} (start : Z) (points : pmetric.Metric → list A)
    (rows : list FlattenedMetric) : list (Z * A) :=
  mjoin (imap (λ (i : nat) row,
                 pair (uint16 (start + Z.of_nat i)) <$> points (Metric row))
              rows).

(** A configuration whose attribute tables refuse the attribute sets
    that start with a string value "test". *)
Definition picky_config : Config :=
  {| Metric_Sorter := by_name;
     Attrs_Accepts := λ attrs,
       match attrs with
       | (_, pcommon.ValueStr v) :: _ => negb (String.eqb v "test")
       | _ => true
       end;
     Attrs_NextID := by_position; RelatedData_Error := None |}.

(** The builder NewMetricsBuilder makes of the accepting record builder
    under that configuration. *)
Definition picky_builder : MetricsBuilder :=
  builder_with picky_config open_record_builder.

(** ** Cells and the schema *)

(** The Arrow type of a cell. *)
Definition cell_type (cell : Cell) : schema.DataType :=
  match cell with
  | CUint16 _ => schema.Uint16
  | CUint8 _ => schema.Uint8
  | CInt32 _ => schema.Int32
  | CString _ => schema.String_
  | CBool _ => schema.Boolean
  | CResource _ _ _ => schema.ResourceDT
  | CScope _ _ _ _ => schema.ScopeDT
  end.

(** An unsigned cell holds a value of its width. *)
Definition cell_in_range (cell : Cell) : Prop :=
  match cell with
  | CUint16 v => 0 ≤ v < 65536
  | CUint8 v => 0 ≤ v < 256
  | _ => True
  end.

(** The type the schema declares for a column. *)
Definition type_in_schema (c : constants.ColumnName) : option schema.DataType :=
  schema.Field_Type <$> schema_field c.
(** ** The optimizer *)

Lemma insert_row_permutation less (x : FlattenedMetric) rows :
  insert_row less x rows ≡ₚ x :: rows.
Proof.
  induction rows as [|y rows IH]; simpl; [reflexivity|].
  destruct (less y x); [|reflexivity].
  rewrite IH. apply Permutation_swap.
Qed.

Lemma filter_split_permutation {A} (f : A → bool) (l : list A) :
  List.filter f l ++ List.filter (λ y, negb (f y)) l ≡ₚ l.
Proof.
  induction l as [|y l IH]; simpl; [reflexivity|].
  destruct (f y); simpl.
  - rewrite IH. reflexivity.
  - rewrite <- Permutation_middle, IH. reflexivity.
Qed.

(** The optimizer drops and duplicates no row: it reorders them. *)
Lemma Optimize_permutation o metrics : Optimize o metrics ≡ₚ flatten o metrics.
Proof.
  unfold Optimize, sort_rows. induction (flatten o metrics) as [|x rows IH]; simpl.
  - reflexivity.
  - unfold place_row. rewrite insert_row_permutation. simpl.
    rewrite filter_split_permutation, IH. reflexivity.
Qed.

(** Scopes that come in the order B, A, B are grouped, each scope's rows
    in their original order when the sort key ties. *)
Example Optimize_groups_scopes :
  (λ row, (pcommon.Scope_Name (Scope row), pmetric.Unit (Metric row)))
    <$> Optimize by_name interleaved_batch
  = [("B", "1"); ("B", "3"); ("A", "2")]%string.
Proof. vm_compute. reflexivity. Qed.

Lemma target_column_builder c r r' :
  rbe_epoch r' = rbe_epoch r → target (column_builder c r) r' = Some c.
Proof.
  intros E. unfold target, column_builder. simpl.
  rewrite E, Nat.eqb_refl. reflexivity.
Qed.

Lemma init_ready b : Ready (snd (init b)).
Proof.
  unfold init. simpl.
  assert (E : rbe_epoch (SetMaxDelta (Uint16DeltaBuilder constants.ID (builder b)) 1
                                     (builder b)) = rbe_epoch (builder b)).
  { unfold SetMaxDelta. destruct (target _ _); reflexivity. }
  split; simpl; try (apply target_column_builder; congruence).
  unfold SetMaxDelta, Uint16DeltaBuilder.
  rewrite target_column_builder by reflexivity. reflexivity.
Qed.

Lemma initialised_ready b : initialised b → Ready b.
Proof. intros H. rewrite <- H. apply init_ready. Qed.

Lemma target_with_columns h cols r : target h (with_columns cols r) = target h r.
Proof. destruct h; reflexivity. Qed.

Lemma ready_put c e b : Ready b → Ready (put c e b).
Proof.
  intros [? ? ? ? ? ? ? ? ? ? ?].
  split; simpl; rewrite ?target_with_columns; assumption.
Qed.

Lemma ready_on_relatedData f b : Ready b → Ready (on_relatedData f b).
Proof. intros [? ? ? ? ? ? ? ? ? ? ?]. split; assumption. Qed.

Lemma append_entry_put h c e b :
  target h (builder b) = Some c → on_builder (append_entry h e) b = put c e b.
Proof. intros H. unfold on_builder, append_entry, put. rewrite H. reflexivity. Qed.

Lemma column_put c e d b : column d (put c e b) = column d b ++ gain c e d.
Proof. reflexivity. Qed.

Lemma effect_refl b : Effect (λ _, []) b b.
Proof. split; auto. intros d. symmetry. apply app_nil_r. Qed.

Lemma effect_trans d1 d2 b1 b2 b3 :
  Effect d1 b1 b2 → Effect d2 b2 b3 → Effect (λ d, d1 d ++ d2 d) b1 b3.
Proof.
  intros [R1 L1 A1 C1] [R2 L2 A2 C2]. split; auto.
  - congruence.
  - congruence.
  - intros d. rewrite C2, C1, app_assoc. reflexivity.
Qed.

Lemma effect_put c e b : Effect (gain c e) b (put c e b).
Proof.
  split; try reflexivity. apply ready_put.
Qed.

Lemma effect_on_relatedData f b : Effect (λ _, []) b (on_relatedData f b).
Proof.
  split; try reflexivity.
  - apply ready_on_relatedData.
  - intros d. symmetry. apply app_nil_r.
Qed.

Lemma effect_ext d1 d2 b b' : (∀ d, d1 d = d2 d) → Effect d1 b b' → Effect d2 b b'.
Proof.
  intros E [R L A C]. split; auto. intros d. rewrite <- E. apply C.
Qed.

Lemma effect_number_dps ID dps b :
  Effect (λ _, []) b (foldl (λ b dp, on_relatedData (NumberDP_Append ID dp) b) b dps).
Proof.
  revert b. induction dps as [|dp dps IH]; intros b; simpl.
  - apply effect_refl.
  - eapply effect_ext; [|eapply effect_trans;
      [apply (effect_on_relatedData (NumberDP_Append ID dp)) | apply IH]].
    reflexivity.
Qed.
Create HintDb ready.
#[local] Hint Resolve ready_put ready_on_relatedData ready_ib ready_rb ready_scb
  ready_sschb ready_mtb ready_nb ready_db ready_ub ready_atb ready_imb : ready.

Lemma type_other_unhandled m extra :
  pmetric.Data m = pmetric.DataOther extra →
  pmetric.Type_ m ≠ pmetric.MetricTypeGauge ∧ pmetric.Type_ m ≠ pmetric.MetricTypeSum
  ∧ pmetric.Type_ m ≠ pmetric.MetricTypeSummary
  ∧ pmetric.Type_ m ≠ pmetric.MetricTypeHistogram
  ∧ pmetric.Type_ m ≠ pmetric.MetricTypeExponentialHistogram
  ∧ pmetric.Type_ m ≠ pmetric.MetricTypeEmpty.
Proof.
  intros E. unfold pmetric.Type_. rewrite E.
  unfold pmetric.MetricTypeGauge, pmetric.MetricTypeSum, pmetric.MetricTypeSummary,
    pmetric.MetricTypeHistogram, pmetric.MetricTypeExponentialHistogram,
    pmetric.MetricTypeEmpty. lia.
Qed.

Lemma append_kind_other ID m b extra :
  pmetric.Data m = pmetric.DataOther extra → append_kind ID m b = b.
Proof.
  intros E. destruct (type_other_unhandled m extra E) as (H1 & H2 & H3 & H4 & H5 & H6).
  unfold append_kind.
  rewrite (proj2 (Z.eqb_neq _ _) H1), (proj2 (Z.eqb_neq _ _) H2),
    (proj2 (Z.eqb_neq _ _) H3), (proj2 (Z.eqb_neq _ _) H4),
    (proj2 (Z.eqb_neq _ _) H5), (proj2 (Z.eqb_neq _ _) H6).
  reflexivity.
Qed.

Lemma effect_entry delta b b1 h c e :
  Effect delta b b1 → Ready b → (Ready b1 → target h (builder b1) = Some c) →
  Effect (λ d, delta d ++ gain c e d) b (on_builder (append_entry h e) b1).
Proof.
  intros Eb R T. eapply effect_trans; [exact Eb|].
  rewrite (append_entry_put h c e b1) by (apply T, Eb, R).
  apply effect_put.
Qed.

Lemma effect_related delta b b1 f :
  Effect delta b b1 → Effect (λ d, delta d ++ []) b (on_relatedData f b1).
Proof. intros Eb. eapply effect_trans; [exact Eb | apply effect_on_relatedData]. Qed.

Lemma effect_dps delta b b1 ID dps :
  Effect delta b b1 →
  Effect (λ d, delta d ++ []) b
         (foldl (λ b dp, on_relatedData (NumberDP_Append ID dp) b) b1 dps).
Proof. intros Eb. eapply effect_trans; [exact Eb | apply effect_number_dps]. Qed.

(** Compose the effects of a chain of appends, innermost first. *)
Ltac effect_chain R :=
  lazymatch goal with
  | |- Effect _ ?b ?b => apply effect_refl
  | |- Effect _ _ (on_builder (append_entry _ _) _) =>
      eapply effect_entry;
      [effect_chain R | exact R | let R1 := fresh "R" in intros R1; eauto with ready]
  | |- Effect _ _ (on_relatedData _ _) => eapply effect_related; effect_chain R
  | |- Effect _ _ (foldl _ _ _) => eapply effect_dps; effect_chain R
  | |- Effect _ _ (put _ _ _) => eapply effect_trans; [effect_chain R | apply effect_put]
  end.

Ltac unfold_appends :=
  unfold AppendNull, Int32_Append, Boolean_Append, Uint8_Append, Uint16Delta_Append,
    AppendNonEmpty.

Lemma append_kind_effect ID m b :
  Ready b → Effect (kind_entries m) b (append_kind ID m b).
Proof.
  intros H. destruct (pmetric.Data m) eqn:E.
  all: try (rewrite (append_kind_other _ _ _ _ E); unfold kind_entries; rewrite E;
            apply effect_refl).
  all: unfold append_kind, kind_entries, pmetric.Type_, pmetric.GetGauge, pmetric.GetSum,
         pmetric.GetSummary, pmetric.GetHistogram, pmetric.GetExponentialHistogram;
       rewrite E; cbn [Z.eqb pmetric.MetricTypeGauge pmetric.MetricTypeSum
         pmetric.MetricTypeSummary pmetric.MetricTypeHistogram
         pmetric.MetricTypeExponentialHistogram pmetric.MetricTypeEmpty Pos.eqb];
       cbv zeta; unfold_appends.
  all: eapply effect_ext; [|effect_chain H].
  all: intros d; simpl; rewrite ?app_nil_r; reflexivity.
Qed.

Lemma number_dps_accumulators ID dps b :
  let b' := foldl (λ b dp, on_relatedData (NumberDP_Append ID dp) b) b dps in
  rd_resource (relatedData b') = rd_resource (relatedData b)
  ∧ rd_scope (relatedData b') = rd_scope (relatedData b).
Proof.
  revert b. induction dps as [|dp dps IH]; intros b; simpl; [auto|].
  destruct (IH (on_relatedData (NumberDP_Append ID dp) b)) as [-> ->]. auto.
Qed.

Lemma append_kind_accumulators ID m b :
  rd_resource (relatedData (append_kind ID m b)) = rd_resource (relatedData b)
  ∧ rd_scope (relatedData (append_kind ID m b)) = rd_scope (relatedData b).
Proof.
  unfold append_kind. cbv zeta.
  repeat match goal with |- context [if ?c then _ else _] => destruct c end;
    try apply number_dps_accumulators; auto.
  all: match goal with
       | |- context [foldl _ ?b0 ?dps] =>
           destruct (number_dps_accumulators ID dps b0) as [-> ->]; auto
       end.
Qed.

Lemma append_struct_ok h cell r r' c :
  target h r = Some c → append_struct h cell r = (None, r') →
  r' = with_columns (push c (Some cell) (rbe_columns r)) r.
Proof.
  intros T. unfold append_struct. rewrite T.
  destruct (rbe_accepts r c cell); congruence.
Qed.

Lemma on_relatedData_resource_id b :
  on_relatedData (with_resource (rd_resource (relatedData b))) b = b.
Proof. destruct b as [? ? ? ? ? ? ? ? ? ? ? ? ? ? []]. reflexivity. Qed.

Lemma on_relatedData_scope_id b :
  on_relatedData (with_scope (rd_scope (relatedData b))) b = b.
Proof. destruct b as [? ? ? ? ? ? ? ? ? ? ? ? ? ? []]. reflexivity. Qed.

Lemma resource_group_ok m l b l' b' :
  resource_group m l b = (None, l', b') →
  ∃ acc',
    b' = on_relatedData (with_resource acc') b
    ∧ l' = {| metricID := metricID l; resMetricsID := ResourceMetricsID m;
              scopeMetricsID := scopeMetricsID l; resID := resID l';
              scopeID := scopeID l |}
    ∧ group_step (resMetricsID l) (ResourceMetricsID m) (resID l)
        (rd_resource (relatedData b)) (pcommon.Resource_Attributes (Resource m))
        (resID l') acc'.
Proof.
  unfold resource_group, group_step, Accumulator_Append.
  destruct (String.eqb_spec (resMetricsID l) (ResourceMetricsID m)) as [E|NE]; simpl.
  - intros [= <- <-]. exists (rd_resource (relatedData b)).
    rewrite on_relatedData_resource_id. destruct l; simpl in *; subst; repeat split.
  - destruct (acc_accepts _ _); [|discriminate]. cbv zeta.
    intros [= <- <-]. eexists. split; [reflexivity|]. simpl. repeat split.
Qed.

Lemma scope_group_ok m l b l' b' :
  scope_group m l b = (None, l', b') →
  ∃ acc',
    b' = on_relatedData (with_scope acc') b
    ∧ l' = {| metricID := metricID l; resMetricsID := resMetricsID l;
              scopeMetricsID := ScopeMetricsID m; resID := resID l;
              scopeID := scopeID l' |}
    ∧ group_step (scopeMetricsID l) (ScopeMetricsID m) (scopeID l)
        (rd_scope (relatedData b)) (pcommon.Scope_Attributes (Scope m))
        (scopeID l') acc'.
Proof.
  unfold scope_group, group_step, Accumulator_Append.
  destruct (String.eqb_spec (scopeMetricsID l) (ScopeMetricsID m)) as [E|NE]; simpl.
  - intros [= <- <-]. exists (rd_scope (relatedData b)).
    rewrite on_relatedData_scope_id. destruct l; simpl in *; subst; repeat split.
  - destruct (acc_accepts _ _); [|discriminate]. cbv zeta.
    intros [= <- <-]. eexists. split; [reflexivity|]. simpl. repeat split.
Qed.

Lemma append_metric_ok m l b l' b' :
  Ready b → append_metric m l b = (None, l', b') →
  Effect (row_entries (metricID l) (resID l') (scopeID l') m) b b'
  ∧ metricID l' = uint16 (metricID l + 1)
  ∧ resMetricsID l' = ResourceMetricsID m
  ∧ scopeMetricsID l' = ScopeMetricsID m
  ∧ group_step (resMetricsID l) (ResourceMetricsID m) (resID l)
      (rd_resource (relatedData b)) (pcommon.Resource_Attributes (Resource m))
      (resID l') (rd_resource (relatedData b'))
  ∧ group_step (scopeMetricsID l) (ScopeMetricsID m) (scopeID l)
      (rd_scope (relatedData b)) (pcommon.Scope_Attributes (Scope m))
      (scopeID l') (rd_scope (relatedData b')).
Proof.
  intros R. unfold append_metric. cbv zeta. unfold_appends.
  set (l0 := {| metricID := uint16 (metricID l + 1) |}).
  set (b0 := on_builder (append_entry (ib b) _) b).
  assert (E0 : Effect (λ d, (λ _, []) d ++ gain constants.ID (Some (CUint16 (metricID l))) d) b b0)
    by (subst b0; effect_chain R).
  destruct (resource_group m l0 b0) as [[[err|] l1] b1] eqn:G1; [discriminate|].
  apply resource_group_ok in G1 as (acc1 & -> & El1 & S1).
  set (b1 := on_relatedData (with_resource acc1) b0) in *.
  assert (E1 : Effect _ b b1) by (apply effect_related, E0).
  assert (R1 : Ready b1) by (apply E1, R).
  destruct (AppendWithID _ _ _ _ _) as [[err|] r2] eqn:A1; [discriminate|].
  apply (append_struct_ok _ _ _ _ _ (ready_rb _ R1)) in A1. subst r2.
  match goal with |- context [scope_group m l1 ?x] => set (b2 := x) end.
  assert (E2 : Effect _ b b2) by (eapply effect_trans; [exact E1 | apply effect_put]).
  assert (R2 : Ready b2) by (apply E2, R).
  destruct (scope_group m l1 b2) as [[[err|] l3] b3'] eqn:G2; [discriminate|].
  apply scope_group_ok in G2 as (acc2 & -> & El3 & S2).
  set (b3 := on_relatedData (with_scope acc2) b2) in *.
  assert (E3 : Effect _ b b3) by (apply effect_related, E2).
  assert (R3 : Ready b3) by (apply E3, R).
  destruct (AppendWithAttrsID _ _ _ _) as [[err|] r4] eqn:A2; [discriminate|].
  apply (append_struct_ok _ _ _ _ _ (ready_scb _ R3)) in A2. subst r4.
  match goal with |- context [sschb ?x] => set (b4 := x) end.
  assert (E4 : Effect _ b b4) by (eapply effect_trans; [exact E3 | apply effect_put]).
  assert (R4 : Ready b4) by (apply E4, R).
  assert (Q4 : rd_resource (relatedData b4) = acc1 ∧ rd_scope (relatedData b4) = acc2)
    by (split; reflexivity).
  clearbody b4.
  match goal with |- context [append_kind _ _ ?x] => set (b8 := x) end.
  assert (E8 : Effect _ b4 b8) by (subst b8; effect_chain R4).
  assert (R8 : Ready b8) by (apply E8, R4).
  intros [= <- <-].
  pose proof (append_kind_effect (metricID l) (Metric m) b8 R8) as E9.
  pose proof (append_kind_accumulators (metricID l) (Metric m) b8) as [A9 A9'].
  assert (Q8 : relatedData b8 = relatedData b4) by reflexivity.
  assert (X1 : resID l3 = resID l1) by (rewrite El3; reflexivity).
  assert (X2 : metricID l3 = uint16 (metricID l + 1))
    by (rewrite El3; simpl; rewrite El1; reflexivity).
  assert (X3 : resMetricsID l3 = ResourceMetricsID m)
    by (rewrite El3; simpl; rewrite El1; reflexivity).
  assert (X4 : scopeMetricsID l3 = ScopeMetricsID m) by (rewrite El3; reflexivity).
  assert (X5 : scopeID l1 = scopeID l) by (rewrite El1; reflexivity).
  assert (X6 : scopeMetricsID l1 = scopeMetricsID l) by (rewrite El1; reflexivity).
  rewrite A9, A9', Q8, (proj1 Q4), (proj2 Q4), X1.
  rewrite X5, X6 in S2.
  split; [|tauto]. split.
  - intros _. apply (eff_ready _ _ _ E9), R8.
  - rewrite (eff_released _ _ _ E9), (eff_released _ _ _ E8). apply E4.
  - rewrite (eff_accepts _ _ _ E9), (eff_accepts _ _ _ E8). apply E4.
  - intros d. rewrite (eff_columns _ _ _ E9), (eff_columns _ _ _ E8),
      (eff_columns _ _ _ E4).
    unfold row_entries, gain.
    destruct d; simpl; rewrite <- ?app_assoc, ?app_nil_r; reflexivity.
Qed.

Lemma kind_entries_other_column m d :
  d ≠ constants.AggregationTemporality → d ≠ constants.IsMonotonic →
  kind_entries m d = [].
Proof.
  intros H1 H2. unfold kind_entries, gain.
  destruct (pmetric.Data m); destruct d; simpl; congruence.
Qed.

Lemma resource_group_any m l b o l' b' :
  resource_group m l b = (o, l', b') →
  (∃ acc', b' = on_relatedData (with_resource acc') b
           ∧ acc_accepts acc' = acc_accepts (rd_resource (relatedData b)))
  ∧ metricID l' = metricID l
  ∧ ∀ e, o = Some e → werror.Cause e = ErrColumnAppend ∧ refuses b.
Proof.
  unfold resource_group, Accumulator_Append.
  destruct (negb _).
  - destruct (acc_accepts _ _) eqn:A; intros [= <- <- <-]; simpl;
      (split; [eexists; split; reflexivity|]); split; auto; intros e [= <-].
    split; [reflexivity|]. left. eexists. exact A.
  - intros [= <- <- <-]. split; [|split; [reflexivity | discriminate]].
    exists (rd_resource (relatedData b)). split; [|reflexivity].
    symmetry. apply on_relatedData_resource_id.
Qed.

Lemma scope_group_any m l b o l' b' :
  scope_group m l b = (o, l', b') →
  (∃ acc', b' = on_relatedData (with_scope acc') b
           ∧ acc_accepts acc' = acc_accepts (rd_scope (relatedData b)))
  ∧ metricID l' = metricID l
  ∧ ∀ e, o = Some e → werror.Cause e = ErrColumnAppend ∧ refuses b.
Proof.
  unfold scope_group, Accumulator_Append.
  destruct (negb _).
  - destruct (acc_accepts _ _) eqn:A; intros [= <- <- <-]; simpl;
      (split; [eexists; split; reflexivity|]); split; auto; intros e [= <-].
    split; [reflexivity|]. right. left. eexists. exact A.
  - intros [= <- <- <-]. split; [|split; [reflexivity | discriminate]].
    exists (rd_scope (relatedData b)). split; [|reflexivity].
    symmetry. apply on_relatedData_scope_id.
Qed.

Lemma append_struct_err h cell r e r' :
  append_struct h cell r = (Some e, r') →
  e = ErrColumnAppend ∧ r' = r ∧ ∃ c, rbe_accepts r c cell = false.
Proof.
  unfold append_struct. destruct (target h r); [|discriminate].
  destruct (rbe_accepts _ _ _) eqn:A; [discriminate|]. intros [= <- <-]. eauto.
Qed.

Lemma with_builder_id b : with_builder (builder b) b = b.
Proof. destruct b. reflexivity. Qed.

Lemma refuses_back b b' :
  rbe_accepts (builder b') = rbe_accepts (builder b) →
  acc_accepts (rd_resource (relatedData b')) = acc_accepts (rd_resource (relatedData b)) →
  acc_accepts (rd_scope (relatedData b')) = acc_accepts (rd_scope (relatedData b)) →
  refuses b' → refuses b.
Proof. unfold refuses. intros -> -> ->. auto. Qed.

(** Whatever the outcome of an iteration, it has written its row id, and
    an error it returns is a column failure: some value was refused. *)
Lemma append_metric_any m l b o l' b' :
  Ready b → append_metric m l b = (o, l', b') →
  (∃ delta, Effect delta b b'
            ∧ delta constants.ID = [Some (CUint16 (metricID l))])
  ∧ metricID l' = uint16 (metricID l + 1)
  ∧ ∀ e, o = Some e → werror.Cause e = ErrColumnAppend ∧ refuses b.
Proof.
  intros R H. destruct o as [e|].
  2:{ destruct (append_metric_ok _ _ _ _ _ R H) as (E & M & _).
      split; [|split; [exact M | discriminate]].
      eexists. split; [exact E|].
      unfold row_entries, gain. simpl.
      rewrite kind_entries_other_column by discriminate. reflexivity. }
  revert H. unfold append_metric. cbv zeta. unfold_appends.
  set (l0 := {| metricID := uint16 (metricID l + 1) |}).
  set (b0 := on_builder (append_entry (ib b) _) b).
  assert (E0 : Effect (λ d, (λ _, []) d ++ gain constants.ID (Some (CUint16 (metricID l))) d) b b0)
    by (subst b0; effect_chain R).
  destruct (resource_group m l0 b0) as [[o1 l1] b1'] eqn:G1.
  apply resource_group_any in G1 as ((acc1 & -> & K1) & M1 & C1).
  set (b1 := on_relatedData (with_resource acc1) b0) in *.
  assert (E1 : Effect _ b b1) by (apply effect_related, E0).
  assert (R1 : Ready b1) by (apply E1, R).
  assert (B0 : refuses b0 → refuses b)
    by (apply refuses_back; [apply E0 | reflexivity | reflexivity]).
  assert (B1 : refuses b1 → refuses b)
    by (apply refuses_back; [apply E1 | exact K1 | reflexivity]).
  destruct o1 as [e1|].
  { intros [= <- <- <-]. split; [|split; [exact M1 | intros ? [= <-]]].
    - eexists. split; [exact E1|]. reflexivity.
    - destruct (C1 _ eq_refl) as [? F]. auto. }
  destruct (AppendWithID _ _ _ _ _) as [[err|] r2] eqn:A1.
  { apply append_struct_err in A1 as (-> & -> & c & F). rewrite with_builder_id.
    intros [= <- <- <-]. split; [|split; [exact M1 | intros ? [= <-]]].
    - eexists. split; [exact E1|]. reflexivity.
    - split; [reflexivity|]. apply B1. right. right. eauto. }
  apply (append_struct_ok _ _ _ _ _ (ready_rb _ R1)) in A1. subst r2.
  match goal with |- context [scope_group m l1 ?x] => set (b2 := x) end.
  assert (E2 : Effect _ b b2) by (eapply effect_trans; [exact E1 | apply effect_put]).
  assert (R2 : Ready b2) by (apply E2, R).
  assert (B2 : refuses b2 → refuses b)
    by (apply refuses_back; [apply E2 | exact K1 | reflexivity]).
  destruct (scope_group m l1 b2) as [[o3 l3] b3'] eqn:G2.
  apply scope_group_any in G2 as ((acc2 & -> & K2) & M3 & C3).
  set (b3 := on_relatedData (with_scope acc2) b2) in *.
  assert (E3 : Effect _ b b3) by (apply effect_related, E2).
  assert (R3 : Ready b3) by (apply E3, R).
  assert (B3 : refuses b3 → refuses b)
    by (apply refuses_back; [apply E3 | exact K1 | exact K2]).
  destruct o3 as [e3|].
  { intros [= <- <- <-].
    split; [|split; [rewrite M3, M1; reflexivity | intros ? [= <-]]].
    - eexists. split; [exact E3|]. reflexivity.
    - destruct (C3 _ eq_refl) as [? F]. auto. }
  destruct (AppendWithAttrsID _ _ _ _) as [[err|] r4] eqn:A2; [|discriminate].
  apply append_struct_err in A2 as (-> & -> & c & F). rewrite with_builder_id.
  intros [= <- <- <-].
  split; [|split; [rewrite M3, M1; reflexivity | intros ? [= <-]]].
  - eexists. split; [exact E3|]. reflexivity.
  - split; [reflexivity|]. apply B3. right. right. eauto.
Qed.

(** The loop keeps the builder ready, and its only errors are column
    failures. *)
Lemma append_metrics_any rows l b o l' b' :
  Ready b → append_metrics rows l b = (o, l', b') →
  Ready b' ∧ released b' = released b
  ∧ ∀ e, o = Some e → werror.Cause e = ErrColumnAppend ∧ refuses b.
Proof.
  revert l b. induction rows as [|m rows IH]; intros l b R; simpl.
  - intros [= <- <- <-]. split; [exact R|]. split; [reflexivity | discriminate].
  - destruct (append_metric m l b) as [[o1 l1] b1] eqn:H1.
    destruct (append_metric_any _ _ _ _ _ _ R H1) as ((delta & E & _) & _ & C).
    destruct o1 as [e1|].
    + intros [= <- <- <-]. split; [apply E, R|]. split; [apply E | ].
      intros e He. apply (C e He).
    + intros H. destruct (IH _ _ (eff_ready _ _ _ E R) H) as (R' & L' & C').
      split; [exact R'|]. split; [rewrite L'; apply E|].
      intros e He. destruct (C' e He) as [? F]. split; [assumption|].
      destruct (append_metric_ok _ _ _ _ _ R H1) as (_ & _ & _ & _ & [K1 _] & [K2 _]).
      revert F. apply refuses_back; [apply E | exact K1 | exact K2].
Qed.

Lemma Append_unreleased b metrics :
  released b = false →
  Append b metrics =
  (let '(err, _, b') :=
     append_metrics (rows_of b metrics) initial_locals (entering b metrics) in
   (err, b')).
Proof. intros H. unfold Append. rewrite H. reflexivity. Qed.

Lemma entering_frame b metrics :
  (Ready b → Ready (entering b metrics))
  ∧ released (entering b metrics) = released b
  ∧ builder (entering b metrics) = builder b
  ∧ relatedData (entering b metrics) = relatedData b.
Proof.
  unfold entering, on_builder, Reserve. cbv zeta.
  destruct (analyzer b); simpl; (split; [|auto]).
  all: intros [? ? ? ? ? ? ? ? ? ? ?]; split; assumption.
Qed.

Lemma uint16_range n : 0 ≤ uint16 n < 65536.
Proof. unfold uint16. apply Z.mod_pos_bound. lia. Qed.

Lemma uint16_small n : 0 ≤ n < 65536 → uint16 n = n.
Proof. unfold uint16. apply Z.mod_small. Qed.

Lemma uint16_succ n i : uint16 (uint16 (n + 1) + i) = uint16 (n + (1 + i)).
Proof. unfold uint16. rewrite Zplus_mod_idemp_l. f_equal. lia. Qed.

Lemma id_entries_S start n :
  0 ≤ start < 65536 →
  id_entries start (S n) = Some (CUint16 start) :: id_entries (uint16 (start + 1)) n.
Proof.
  intros H. unfold id_entries. simpl. rewrite Z.add_0_r, (uint16_small _ H).
  f_equal. rewrite <- fmap_S_seq, <- list_fmap_compose. apply list_fmap_ext.
  intros _ i _. simpl. rewrite uint16_succ. do 3 f_equal. lia.
Qed.

Lemma append_metrics_ids rows l b o l' b' :
  Ready b → 0 ≤ metricID l < 65536 →
  append_metrics rows l b = (o, l', b') →
  ∃ k : nat, (k ≤ length rows)%nat ∧ (o = None → k = length rows)
             ∧ column constants.ID b' = column constants.ID b ++ id_entries (metricID l) k.
Proof.
  revert l b. induction rows as [|m rows IH]; intros l b R Hl; simpl.
  - intros [= <- <- <-]. exists 0%nat. rewrite app_nil_r. auto.
  - destruct (append_metric m l b) as [[o1 l1] b1] eqn:H1.
    destruct (append_metric_any _ _ _ _ _ _ R H1) as ((delta & E & D) & M & _).
    pose proof (eff_columns _ _ _ E constants.ID) as C. rewrite D in C.
    destruct o1 as [e1|].
    + intros [= <- <- <-]. exists 1%nat. split; [lia|]. split; [discriminate|].
      rewrite C. unfold id_entries. simpl.
      rewrite Z.add_0_r, (uint16_small _ Hl). reflexivity.
    + intros H.
      assert (Hl1 : 0 ≤ metricID l1 < 65536) by (rewrite M; apply uint16_range).
      destruct (IH _ _ (eff_ready _ _ _ E R) Hl1 H) as (k & Hk & Hn & Hc).
      exists (S k). split; [lia|]. split; [intros ?; f_equal; auto|].
      rewrite Hc, C, (id_entries_S _ _ Hl), M, <- app_assoc. reflexivity.
Qed.

Lemma lookup_id_entries start n (i : nat) :
  (i < n)%nat →
  id_entries start n !! i = Some (Some (CUint16 (uint16 (start + Z.of_nat i)))).
Proof.
  intros H. unfold id_entries.
  rewrite list_lookup_fmap, lookup_seq_lt by exact H. reflexivity.
Qed.

Lemma length_id_entries start n : length (id_entries start n) = n.
Proof. unfold id_entries. rewrite length_fmap, length_seq. reflexivity. Qed.

Lemma id_entries_small n :
  Z.of_nat n ≤ 65536 →
  id_entries 0 n = (λ i : nat, Some (CUint16 (Z.of_nat i))) <$> seq 0 n.
Proof.
  intros H. unfold id_entries. apply list_fmap_ext. intros j i Hi.
  apply lookup_seq in Hi as [-> Hi]. rewrite uint16_small by lia. reflexivity.
Qed.

(** The outcome of [Append] on a builder that is not released. *)
Lemma Append_loop b metrics err b' :
  released b = false → Append b metrics = (err, b') →
  ∃ l', append_metrics (rows_of b metrics) initial_locals (entering b metrics)
        = (err, l', b').
Proof.
  intros H. rewrite (Append_unreleased _ _ H).
  destruct (append_metrics _ _ _) as [[o l'] b1]. intros [= <- <-]. eauto.
Qed.

Lemma Append_ids b metrics err b' :
  released b = false → Ready b → Append b metrics = (err, b') →
  ∃ k : nat,
    (k ≤ length (rows_of b metrics))%nat
    ∧ (err = None → k = length (rows_of b metrics))
    ∧ column constants.ID b' = column constants.ID b ++ id_entries 0 k
    ∧ Ready b'.
Proof.
  intros Hr R H. destruct (Append_loop _ _ _ _ Hr H) as [l' L].
  destruct (entering_frame b metrics) as (R0 & _ & B0 & _).
  assert (I : 0 ≤ metricID initial_locals < 65536) by (simpl; lia).
  destruct (append_metrics_ids _ _ _ _ _ _ (R0 R) I L) as (k & Hk & Hn & Hc).
  exists k. split; [exact Hk|]. split; [exact Hn|]. split.
  - rewrite Hc. unfold column. rewrite B0. reflexivity.
  - apply (append_metrics_any _ _ _ _ _ _ (R0 R) L).
Qed.

Lemma Append_succeeds b metrics :
  released b = false → Ready b → ¬ refuses b → fst (Append b metrics) = None.
Proof.
  intros Hr R N. destruct (Append b metrics) as [[e|] b'] eqn:H; [|reflexivity].
  destruct (Append_loop _ _ _ _ Hr H) as [l' L].
  destruct (entering_frame b metrics) as (R0 & _ & B0 & D0).
  destruct (append_metrics_any _ _ _ _ _ _ (R0 R) L) as (_ & _ & C).
  destruct (C e eq_refl) as [_ F]. exfalso. apply N. revert F.
  apply refuses_back; rewrite ?B0, ?D0; reflexivity.
Qed.

Lemma length_insert_row less x rows :
  length (insert_row less x rows) = S (length rows).
Proof.
  induction rows as [|y rows IH]; simpl; [reflexivity|].
  destruct (less y x); simpl; rewrite ?IH; reflexivity.
Qed.

Lemma length_filter_split {A} (f : A → bool) (l : list A) :
  (length (List.filter f l) + length (List.filter (λ y, negb (f y)) l))%nat = length l.
Proof.
  induction l as [|y l IH]; simpl; [reflexivity|].
  destruct (f y); simpl; lia.
Qed.

Lemma length_place_row less x rows :
  length (place_row less x rows) = S (length rows).
Proof.
  unfold place_row. rewrite length_app, length_insert_row.
  pose proof (length_filter_split (same_group x) rows). lia.
Qed.

Lemma length_Optimize o metrics :
  length (Optimize o metrics) = length (flatten o metrics).
Proof.
  unfold Optimize, sort_rows. induction (flatten o metrics) as [|x rows IH]; simpl.
  - reflexivity.
  - rewrite length_place_row, IH. reflexivity.
Qed.

Lemma id_entries_0 n :
  id_entries 0 n = (λ i : nat, Some (CUint16 (uint16 (Z.of_nat i)))) <$> seq 0 n.
Proof. reflexivity. Qed.

(** C2 (amended): the row ids [Append] writes to the id column are, in
    emission order, 0, 1, 2, ... reduced modulo 2^16 (the id is a uint16),
    also when the call fails part-way; for a batch of at most 65536 rows
    they are exactly 0, 1, 2, ..., strictly increasing from 0, each the
    previous one plus the configured maximum delta of 1. *)
Theorem Append_row_ids (b : MetricsBuilder) (metrics : pmetric.Metrics)
    (err : option error) (b' : MetricsBuilder) :
  released b = false → initialised b → Append b metrics = (err, b') →
  ∃ k : nat,
    (k ≤ length (rows_of b metrics))%nat
    ∧ (err = None → k = length (rows_of b metrics))
    ∧ column constants.ID b'
      = column constants.ID b
        ++ ((λ i : nat, Some (CUint16 (uint16 (Z.of_nat i)))) <$> seq 0 k)
    ∧ rbe_max_delta (builder b') = Some 1
    ∧ (Z.of_nat (length (rows_of b metrics)) ≤ 65536 →
       column constants.ID b'
       = column constants.ID b ++ ((λ i : nat, Some (CUint16 (Z.of_nat i))) <$> seq 0 k)
       ∧ ∀ (i : nat) (x y : Z),
           (length (column constants.ID b) ≤ i)%nat →
           column constants.ID b' !! i = Some (Some (CUint16 x)) →
           column constants.ID b' !! S i = Some (Some (CUint16 y)) →
           0 ≤ x ∧ y = x + 1).
Proof.
  intros Hr Hi H.
  destruct (Append_ids _ _ _ _ Hr (initialised_ready _ Hi) H) as (k & Hk & Hn & Hc & R').
  exists k. split; [exact Hk|]. split; [exact Hn|]. split; [exact Hc|].
  split; [apply R'|]. intros Hs.
  assert (E : id_entries 0 k = (λ i : nat, Some (CUint16 (Z.of_nat i))) <$> seq 0 k)
    by (apply id_entries_small; lia).
  split; [rewrite Hc, E; reflexivity|].
  intros i x y Hlen Hx Hy. rewrite Hc, E in Hx, Hy.
  rewrite lookup_app_r in Hx by lia. rewrite lookup_app_r in Hy by lia.
  rewrite list_lookup_fmap in Hx, Hy.
  replace (S i - length (column constants.ID b))%nat
    with (S (i - length (column constants.ID b)))%nat in Hy by lia.
  destruct (seq 0 k !! (i - length (column constants.ID b))%nat) as [p|] eqn:Ep;
    [|discriminate].
  destruct (seq 0 k !! S (i - length (column constants.ID b))%nat) as [q|] eqn:Eq;
    [|discriminate].
  apply lookup_seq in Ep as [-> _]. apply lookup_seq in Eq as [-> _].
  simpl in Hx, Hy. injection Hx as <-. injection Hy as <-. lia.
Qed.

Lemma Append_row_ids_witness :
  released example_builder = false ∧ initialised example_builder
  ∧ ∃ k : nat,
      (k ≤ length (rows_of example_builder scenario_batch))%nat
      ∧ (fst (Append example_builder scenario_batch) = None →
         k = length (rows_of example_builder scenario_batch))
      ∧ column constants.ID (snd (Append example_builder scenario_batch))
        = column constants.ID example_builder
          ++ ((λ i : nat, Some (CUint16 (uint16 (Z.of_nat i)))) <$> seq 0 k)
      ∧ rbe_max_delta (builder (snd (Append example_builder scenario_batch))) = Some 1
      ∧ (Z.of_nat (length (rows_of example_builder scenario_batch)) ≤ 65536 →
         column constants.ID (snd (Append example_builder scenario_batch))
         = column constants.ID example_builder
           ++ ((λ i : nat, Some (CUint16 (Z.of_nat i))) <$> seq 0 k)
         ∧ ∀ (i : nat) (x y : Z),
             (length (column constants.ID example_builder) ≤ i)%nat →
             column constants.ID (snd (Append example_builder scenario_batch)) !! i
             = Some (Some (CUint16 x)) →
             column constants.ID (snd (Append example_builder scenario_batch)) !! S i
             = Some (Some (CUint16 y)) →
             0 ≤ x ∧ y = x + 1).
Proof.
  assert (H1 : released example_builder = false) by reflexivity.
  assert (H2 : initialised example_builder) by reflexivity.
  assert (H3 : Append example_builder scenario_batch
               = (fst (Append example_builder scenario_batch),
                  snd (Append example_builder scenario_batch)))
    by (destruct (Append example_builder scenario_batch); reflexivity).
  split; [exact H1|]. split; [exact H2|].
  exact (Append_row_ids example_builder scenario_batch _ _ H1 H2 H3).
Defined.

Lemma example_builder_accepts : ¬ refuses example_builder.
Proof. intros [[a H]|[[a H]|(c & cell & H)]]; discriminate H. Qed.

Lemma length_wide_rows :
  length (rows_of example_builder wide_batch) = Z.to_nat 65537.
Proof.
  unfold rows_of. rewrite length_Optimize.
  unfold flatten, wide_batch, one_scope, flatten_scope.
  cbn [map pmetric.rm_ScopeMetrics pmetric.sm_Metrics concat].
  rewrite !app_nil_r, length_map. apply repeat_length.
Qed.

(** C2, as stated, fails on a batch of 65537 rows: the call succeeds and
    the row after the one with id 65535 gets id 0. *)
Lemma Append_row_ids_wrap :
  ∃ b', Append example_builder wide_batch = (None, b')
        ∧ column constants.ID b' !! Z.to_nat 65535 = Some (Some (CUint16 65535))
        ∧ column constants.ID b' !! Z.to_nat 65536 = Some (Some (CUint16 0)).
Proof.
  destruct (Append example_builder wide_batch) as [err b'] eqn:H.
  assert (R : Ready example_builder) by (apply initialised_ready; reflexivity).
  pose proof (Append_succeeds example_builder wide_batch eq_refl R
                example_builder_accepts) as S.
  rewrite H in S. simpl in S. subst err.
  exists b'. split; [reflexivity|].
  destruct (Append_ids example_builder wide_batch _ _ eq_refl R H)
    as (k & _ & Hn & Hc & _).
  rewrite (Hn eq_refl), length_wide_rows in Hc. rewrite Hc.
  change (column constants.ID example_builder) with (@nil (option Cell)).
  rewrite !app_nil_l, !lookup_id_entries by lia.
  rewrite !Z2Nat.id by lia. split; reflexivity.
Qed.

Lemma append_metrics_local d (g : FlattenedMetric → Column) rows l b l' b' :
  (∀ ID rid sid m, row_entries ID rid sid m d = g m) →
  Ready b → append_metrics rows l b = (None, l', b') →
  column d b' = column d b ++ concat (map g rows).
Proof.
  intros G. revert l b. induction rows as [|m rows IH]; intros l b R; simpl.
  - intros [= <- <-]. symmetry. apply app_nil_r.
  - destruct (append_metric m l b) as [[[e|] l1] b1] eqn:H1; [discriminate|].
    destruct (append_metric_ok _ _ _ _ _ R H1) as (E & _).
    intros H. rewrite (IH _ _ (eff_ready _ _ _ E R) H), (eff_columns _ _ _ E), G.
    symmetry. apply app_assoc.
Qed.

Lemma Append_local d (g : FlattenedMetric → Column) b metrics b' :
  (∀ ID rid sid m, row_entries ID rid sid m d = g m) →
  released b = false → Ready b → Append b metrics = (None, b') →
  column d b' = column d b ++ concat (map g (rows_of b metrics)).
Proof.
  intros G Hr R H. destruct (Append_loop _ _ _ _ Hr H) as [l' L].
  destruct (entering_frame b metrics) as (R0 & _ & B0 & _).
  rewrite (append_metrics_local d g _ _ _ _ _ G (R0 R) L).
  unfold column. rewrite B0. reflexivity.
Qed.

Lemma concat_singletons {A B} (f : A → B) (l : list A) :
  concat (map (λ x, [f x]) l) = f <$> l.
Proof. induction l as [|x l IH]; simpl; [reflexivity | rewrite IH; reflexivity]. Qed.

Lemma concat_options {A B} (f : A → option B) (l : list A) :
  concat (map (λ x, option_list (f x)) l) = omap f l.
Proof.
  induction l as [|x l IH]; simpl; [reflexivity|].
  rewrite IH. destruct (f x); reflexivity.
Qed.

Lemma non_empty_null_when_empty s : CString <$> non_empty s = null_when_empty s.
Proof.
  unfold non_empty, null_when_empty.
  destruct (String.eqb_spec s ""); destruct (decide (s = ""%string)); try reflexivity;
    contradiction.
Qed.

Lemma Type_nonneg m : 0 ≤ pmetric.Type_ m.
Proof.
  unfold pmetric.Type_, pmetric.MetricTypeEmpty, pmetric.MetricTypeGauge,
    pmetric.MetricTypeSum, pmetric.MetricTypeHistogram,
    pmetric.MetricTypeExponentialHistogram, pmetric.MetricTypeSummary.
  destruct (pmetric.Data m); lia.
Qed.

(** C8: for every appended row the switch writes, to the
    aggregation-temporality and is-monotonic columns: null and null for a
    gauge, a summary and an empty metric; the temporality and the
    monotonic flag for a sum; the temporality and null for a histogram and
    an exponential histogram.  The entries a successful [Append] adds to
    the two columns are those of this table, in row order. *)
Theorem Append_kind_columns (b : MetricsBuilder) (metrics : pmetric.Metrics)
    (b' : MetricsBuilder) :
  released b = false → initialised b → Append b metrics = (None, b') →
  column constants.AggregationTemporality b'
  = column constants.AggregationTemporality b
    ++ omap (λ row, temporality_written (Metric row)) (rows_of b metrics)
  ∧ column constants.IsMonotonic b'
    = column constants.IsMonotonic b
      ++ omap (λ row, monotonic_written (Metric row)) (rows_of b metrics).
Proof.
  intros Hr Hi H. pose proof (initialised_ready _ Hi) as R. split.
  - rewrite <- concat_options.
    apply (Append_local constants.AggregationTemporality
             (λ row, option_list (temporality_written (Metric row))));
      [|exact Hr|exact R|exact H].
    intros ID rid sid m. unfold row_entries, kind_entries, temporality_written, gain.
    destruct (pmetric.Data (Metric m)); reflexivity.
  - rewrite <- concat_options.
    apply (Append_local constants.IsMonotonic
             (λ row, option_list (monotonic_written (Metric row))));
      [|exact Hr|exact R|exact H].
    intros ID rid sid m. unfold row_entries, kind_entries, monotonic_written, gain.
    destruct (pmetric.Data (Metric m)); reflexivity.
Qed.

Lemma Append_kind_columns_witness :
  released example_builder = false ∧ initialised example_builder
  ∧ Append example_builder scenario_batch
    = (None, snd (Append example_builder scenario_batch))
  ∧ column constants.AggregationTemporality (snd (Append example_builder scenario_batch))
    = column constants.AggregationTemporality example_builder
      ++ omap (λ row, temporality_written (Metric row))
           (rows_of example_builder scenario_batch)
  ∧ column constants.IsMonotonic (snd (Append example_builder scenario_batch))
    = column constants.IsMonotonic example_builder
      ++ omap (λ row, monotonic_written (Metric row))
           (rows_of example_builder scenario_batch).
Proof.
  assert (H1 : released example_builder = false) by reflexivity.
  assert (H2 : initialised example_builder) by reflexivity.
  assert (F : fst (Append example_builder scenario_batch) = None)
    by (vm_compute; reflexivity).
  assert (H3 : Append example_builder scenario_batch
               = (None, snd (Append example_builder scenario_batch)))
    by (revert F; destruct (Append example_builder scenario_batch); simpl;
        intros ->; reflexivity).
  split; [exact H1|]. split; [exact H2|]. split; [exact H3|].
  exact (Append_kind_columns example_builder scenario_batch _ H1 H2 H3).
Defined.

(** C9: for every appended row the metric-type column gets the metric's
    kind as an unsigned 8-bit value, the kind's discriminant modulo 256,
    which equals the discriminant only when that is less than 256. *)
Theorem Append_metric_type (b : MetricsBuilder) (metrics : pmetric.Metrics)
    (b' : MetricsBuilder) :
  released b = false → initialised b → Append b metrics = (None, b') →
  column constants.MetricType b'
  = column constants.MetricType b
    ++ ((λ row, Some (CUint8 (pmetric.Type_ (Metric row) mod 256)))
          <$> rows_of b metrics)
  ∧ ∀ row, 0 ≤ pmetric.Type_ (Metric row) mod 256 < 256
           ∧ (pmetric.Type_ (Metric row) mod 256 = pmetric.Type_ (Metric row)
              ↔ pmetric.Type_ (Metric row) < 256).
Proof.
  intros Hr Hi H. pose proof (initialised_ready _ Hi) as R. split.
  - rewrite <- concat_singletons.
    apply (Append_local constants.MetricType
             (λ row, [Some (CUint8 (pmetric.Type_ (Metric row) mod 256))]));
      [|exact Hr|exact R|exact H].
    intros ID rid sid m. unfold row_entries, gain. simpl.
    rewrite kind_entries_other_column by discriminate. reflexivity.
  - intros row. pose proof (Type_nonneg (Metric row)) as N.
    split; [apply Z.mod_pos_bound; lia|]. split.
    + intros E. rewrite <- E. apply Z.mod_pos_bound. lia.
    + intros L. apply Z.mod_small. lia.
Qed.

Lemma Append_metric_type_witness :
  released example_builder = false ∧ initialised example_builder
  ∧ Append example_builder scenario_batch
    = (None, snd (Append example_builder scenario_batch))
  ∧ column constants.MetricType (snd (Append example_builder scenario_batch))
    = column constants.MetricType example_builder
      ++ ((λ row, Some (CUint8 (pmetric.Type_ (Metric row) mod 256)))
            <$> rows_of example_builder scenario_batch).
Proof.
  assert (H1 : released example_builder = false) by reflexivity.
  assert (H2 : initialised example_builder) by reflexivity.
  assert (F : fst (Append example_builder scenario_batch) = None)
    by (vm_compute; reflexivity).
  assert (H3 : Append example_builder scenario_batch
               = (None, snd (Append example_builder scenario_batch)))
    by (revert F; destruct (Append example_builder scenario_batch); simpl;
        intros ->; reflexivity).
  split; [exact H1|]. split; [exact H2|]. split; [exact H3|].
  exact (proj1 (Append_metric_type example_builder scenario_batch _ H1 H2 H3)).
Defined.

(** C10: for every appended row an empty scope schema URL, metric name,
    description or unit is appended as a null entry, never as an empty
    string, so an empty field and an absent one give the same column;
    this includes the name column, which the schema does not mark
    optional (the other three are). *)
Theorem Append_empty_strings (b : MetricsBuilder) (metrics : pmetric.Metrics)
    (b' : MetricsBuilder) :
  released b = false → initialised b → Append b metrics = (None, b') →
  column constants.SchemaUrl b'
  = column constants.SchemaUrl b
    ++ ((λ row, null_when_empty (ScopeSchemaUrl row)) <$> rows_of b metrics)
  ∧ column constants.Name b'
    = column constants.Name b
      ++ ((λ row, null_when_empty (pmetric.Name (Metric row))) <$> rows_of b metrics)
  ∧ column constants.Description b'
    = column constants.Description b
      ++ ((λ row, null_when_empty (pmetric.Description (Metric row)))
            <$> rows_of b metrics)
  ∧ column constants.Unit b'
    = column constants.Unit b
      ++ ((λ row, null_when_empty (pmetric.Unit (Metric row))) <$> rows_of b metrics)
  ∧ null_when_empty "" = None
  ∧ (∀ s, null_when_empty s ≠ Some (CString ""))
  ∧ optional_in_schema constants.Name = Some false
  ∧ optional_in_schema constants.SchemaUrl = Some true
  ∧ optional_in_schema constants.Description = Some true
  ∧ optional_in_schema constants.Unit = Some true.
Proof.
  intros Hr Hi H. pose proof (initialised_ready _ Hi) as R.
  assert (L : ∀ d (f : FlattenedMetric → string),
            (∀ ID rid sid m,
               row_entries ID rid sid m d = [CString <$> non_empty (f m)]) →
            column d b' = column d b
                          ++ ((λ row, null_when_empty (f row)) <$> rows_of b metrics)).
  { intros d f G. rewrite <- concat_singletons.
    apply (Append_local d (λ row, [null_when_empty (f row)])); [|exact Hr|exact R|exact H].
    intros ID rid sid m. rewrite G, non_empty_null_when_empty. reflexivity. }
  split; [|split; [|split; [|split]]].
  1-4: apply L; intros ID rid sid m; unfold row_entries, gain; simpl;
       rewrite kind_entries_other_column by discriminate; reflexivity.
  split; [reflexivity|]. split; [|repeat split].
  intros s. unfold null_when_empty. destruct (decide (s = ""%string)); congruence.
Qed.

Lemma Append_empty_strings_witness :
  released example_builder = false ∧ initialised example_builder
  ∧ Append example_builder scenario_batch
    = (None, snd (Append example_builder scenario_batch))
  ∧ column constants.SchemaUrl (snd (Append example_builder scenario_batch))
    = column constants.SchemaUrl example_builder
      ++ ((λ row, null_when_empty (ScopeSchemaUrl row))
            <$> rows_of example_builder scenario_batch).
Proof.
  assert (H1 : released example_builder = false) by reflexivity.
  assert (H2 : initialised example_builder) by reflexivity.
  assert (F : fst (Append example_builder scenario_batch) = None)
    by (vm_compute; reflexivity).
  assert (H3 : Append example_builder scenario_batch
               = (None, snd (Append example_builder scenario_batch)))
    by (revert F; destruct (Append example_builder scenario_batch); simpl;
        intros ->; reflexivity).
  split; [exact H1|]. split; [exact H2|]. split; [exact H3|].
  exact (proj1 (Append_empty_strings example_builder scenario_batch _ H1 H2 H3)).
Defined.
Lemma length_current_ids key prev cur ids rows :
  length (current_ids key prev cur ids rows) = length rows.
Proof.
  revert prev cur ids. induction rows as [|r rows IH]; intros; simpl; [reflexivity|].
  destruct (String.eqb prev (key r)); [|destruct ids]; simpl; rewrite IH; reflexivity.
Qed.




(** The id current at a row with a non-empty grouping identifier was
    returned by the accumulator for the attribute set of a row of the
    same group: the row that started it. *)
Lemma current_ids_resolve (key : FlattenedMetric → string)
    (attrs : FlattenedMetric → pcommon.Map) rows :
  ∀ (Seen : FlattenedMetric → Prop) prev cur (pre gained : list (Z * pcommon.Map)),
    snd <$> gained = attrs <$> group_starts key prev rows →
    (prev ≠ ""%string → ∃ r0, Seen r0 ∧ key r0 = prev ∧ (cur, attrs r0) ∈ pre) →
    ∀ (i : nat) row rid,
      rows !! i = Some row →
      current_ids key prev cur (fst <$> gained) rows !! i = Some rid →
      key row ≠ ""%string →
      ∃ row', (Seen row' ∨ ∃ j : nat, (j ≤ i)%nat ∧ rows !! j = Some row')
              ∧ key row' = key row
              ∧ (rid, attrs row') ∈ pre ++ gained.
Proof.
  induction rows as [|r rows IH]; intros Seen prev cur pre gained Hg Inv i row rid;
    [discriminate|].
  simpl in Hg. simpl. destruct (String.eqb_spec prev (key r)) as [E|NE]; simpl in Hg.
  - destruct i as [|i]; simpl.
    + intros [= <-] [= <-] Hk.
      destruct Inv as (r0 & S0 & K0 & L0); [congruence|].
      exists r0. split; [left; exact S0|]. split; [congruence|].
      apply elem_of_app. left. exact L0.
    + intros Hrow Hid Hk.
      destruct (IH (λ x, Seen x ∨ x = r) (key r) cur pre gained Hg) with (i := i)
        (row := row) (rid := rid) as (row' & Hs & K' & L'); try assumption.
      { intros Hne. destruct Inv as (r0 & S0 & K0 & L0); [congruence|].
        exists r0. split; [left; exact S0|]. split; [congruence | exact L0]. }
      exists row'. split; [|split; [exact K' | exact L']].
      destruct Hs as [[Hs| ->]|(j & Hj & Hjr)].
      * left. exact Hs.
      * right. exists 0%nat. split; [lia | reflexivity].
      * right. exists (S j). split; [lia | exact Hjr].
  - destruct gained as [|[id a] gained]; [discriminate Hg|]. simpl in Hg.
    injection Hg as -> Hg. simpl.
    assert (T : pre ++ (id, attrs r) :: gained = (pre ++ [(id, attrs r)]) ++ gained)
      by (rewrite <- app_assoc; reflexivity).
    rewrite T. clear T.
    assert (Lk : (id, attrs r) ∈ pre ++ [(id, attrs r)])
      by (apply elem_of_app; right; left).
    destruct i as [|i]; simpl.
    + intros [= <-] [= <-] Hk. exists r.
      split; [right; exists 0%nat; split; [lia | reflexivity]|].
      split; [reflexivity|]. apply elem_of_app. left. exact Lk.
    + intros Hrow Hid Hk.
      destruct (IH (λ x, Seen x ∨ x = r) (key r) id (pre ++ [(id, attrs r)]) gained Hg)
        with (i := i) (row := row) (rid := rid) as (row' & Hs & K' & L'); try assumption.
      { intros _. exists r. split; [right; reflexivity|].
        split; [reflexivity | exact Lk]. }
      exists row'. split; [|split; [exact K' | exact L']].
      destruct Hs as [[Hs| ->]|(j & Hj & Hjr)].
      * left. exact Hs.
      * right. exists 0%nat. split; [lia | reflexivity].
      * right. exists (S j). split; [lia | exact Hjr].
Qed.

Lemma calls_since_app n (acc : AttributesAccumulator) calls gained :
  n = length calls → acc_calls acc = calls ++ gained → calls_since n acc = gained.
Proof. intros -> E. unfold calls_since. rewrite E. apply drop_app_length. Qed.

(** What the loop writes to the resource and scope columns and asks of
    the two accumulators. *)
Lemma append_metrics_groups rows l b l' b' :
  Ready b → append_metrics rows l b = (None, l', b') →
  (∃ gained,
     acc_calls (rd_resource (relatedData b'))
     = acc_calls (rd_resource (relatedData b)) ++ gained
     ∧ snd <$> gained
       = (λ row, pcommon.Resource_Attributes (Resource row))
           <$> group_starts ResourceMetricsID (resMetricsID l) rows
     ∧ column constants.Resource b'
       = column constants.Resource b
         ++ zip_with resource_cell
              (current_ids ResourceMetricsID (resMetricsID l) (resID l)
                 (fst <$> gained) rows) rows)
  ∧ (∃ gained,
       acc_calls (rd_scope (relatedData b'))
       = acc_calls (rd_scope (relatedData b)) ++ gained
       ∧ snd <$> gained
         = (λ row, pcommon.Scope_Attributes (Scope row))
             <$> group_starts ScopeMetricsID (scopeMetricsID l) rows
       ∧ column constants.Scope b'
         = column constants.Scope b
           ++ zip_with scope_cell
                (current_ids ScopeMetricsID (scopeMetricsID l) (scopeID l)
                   (fst <$> gained) rows) rows).
Proof.
  revert l b. induction rows as [|m rows IH]; intros l b R; simpl.
  - intros [= <- <-]. split; exists []; rewrite !app_nil_r; auto.
  - destruct (append_metric m l b) as [[[e|] l1] b1] eqn:H1; [discriminate|].
    destruct (append_metric_ok _ _ _ _ _ R H1)
      as (E & _ & P1 & P2 & (_ & _ & G1) & (_ & _ & G2)).
    intros H. destruct (IH _ _ (eff_ready _ _ _ E R) H)
      as ((g1 & A1 & S1 & C1) & (g2 & A2 & S2 & C2)).
    rewrite P1 in C1, S1. rewrite P2 in C2, S2.
    pose proof (eff_columns _ _ _ E constants.Resource) as CR.
    pose proof (eff_columns _ _ _ E constants.Scope) as CS.
    unfold row_entries, gain in CR, CS. simpl in CR, CS.
    rewrite kind_entries_other_column in CR, CS by discriminate.
    split.
    + clear g2 A2 S2 C2 CS G2.
      destruct (String.eqb (resMetricsID l) (ResourceMetricsID m)).
      * destruct G1 as [Ec Ea]. exists g1.
        split; [rewrite A1, Ea; reflexivity|]. split; [exact S1|].
        rewrite C1, CR, Ec, <- app_assoc. reflexivity.
      * destruct G1 as [_ Ea].
        exists ((resID l1, pcommon.Resource_Attributes (Resource m)) :: g1).
        split; [rewrite A1, Ea, <- app_assoc; reflexivity|].
        split; [rewrite fmap_cons, S1; reflexivity|].
        rewrite C1, CR, <- app_assoc. reflexivity.
    + clear g1 A1 S1 C1 CR G1.
      destruct (String.eqb (scopeMetricsID l) (ScopeMetricsID m)).
      * destruct G2 as [Ec Ea]. exists g2.
        split; [rewrite A2, Ea; reflexivity|]. split; [exact S2|].
        rewrite C2, CS, Ec, <- app_assoc. reflexivity.
      * destruct G2 as [_ Ea].
        exists ((scopeID l1, pcommon.Scope_Attributes (Scope m)) :: g2).
        split; [rewrite A2, Ea, <- app_assoc; reflexivity|].
        split; [rewrite fmap_cons, S2; reflexivity|].
        rewrite C2, CS, <- app_assoc. reflexivity.
Qed.

(** The same for [Append], in terms of the appends the accumulators
    record during the call. *)
Lemma Append_groups b metrics b' :
  released b = false → Ready b → Append b metrics = (None, b') →
  (snd <$> calls_since (length (acc_calls (rd_resource (relatedData b))))
             (rd_resource (relatedData b'))
   = (λ row, pcommon.Resource_Attributes (Resource row))
       <$> group_starts ResourceMetricsID "" (rows_of b metrics)
   ∧ column constants.Resource b'
     = column constants.Resource b
       ++ zip_with resource_cell
            (current_ids ResourceMetricsID "" 0
               (fst <$> calls_since (length (acc_calls (rd_resource (relatedData b))))
                          (rd_resource (relatedData b')))
               (rows_of b metrics))
            (rows_of b metrics))
  ∧ (snd <$> calls_since (length (acc_calls (rd_scope (relatedData b))))
               (rd_scope (relatedData b'))
     = (λ row, pcommon.Scope_Attributes (Scope row))
         <$> group_starts ScopeMetricsID "" (rows_of b metrics)
     ∧ column constants.Scope b'
       = column constants.Scope b
         ++ zip_with scope_cell
              (current_ids ScopeMetricsID "" 0
                 (fst <$> calls_since (length (acc_calls (rd_scope (relatedData b))))
                            (rd_scope (relatedData b')))
                 (rows_of b metrics))
              (rows_of b metrics)).
Proof.
  intros Hr R H. destruct (Append_loop _ _ _ _ Hr H) as [l' L].
  destruct (entering_frame b metrics) as (R0 & _ & B0 & D0).
  destruct (append_metrics_groups _ _ _ _ _ (R0 R) L)
    as ((g1 & A1 & S1 & C1) & (g2 & A2 & S2 & C2)).
  unfold column in C1, C2. rewrite B0 in C1, C2. rewrite D0 in A1, A2.
  simpl in C1, S1, C2, S2. fold (rows_of b metrics) in *.
  rewrite (calls_since_app _ _ _ _ eq_refl A1), (calls_since_app _ _ _ _ eq_refl A2).
  auto.
Qed.







(** Two resources with different attributes: the accumulator is asked
    twice and the two rows get the two ids it returns. *)
Example two_resources_columns :
  column constants.Resource (snd (Append example_builder two_resources_batch))
  = [Some (CResource 0 None 0); Some (CResource 1 None 0)]
  ∧ column constants.Scope (snd (Append example_builder two_resources_batch))
    = [Some (CScope (Some "lib"%string) (Some "1"%string) 0 0);
       Some (CScope (Some "lib"%string) (Some "1"%string) 0 0)]
  ∧ acc_calls (rd_resource
                 (relatedData (snd (Append example_builder two_resources_batch))))
    = [(0, [("env"%string, pcommon.ValueStr "prod")]);
       (1, [("env"%string, pcommon.ValueStr "test")])].
Proof. vm_compute. repeat split. Qed.

(** C5: on a builder on which Release has been called, Append and Build
    return the already-released error at once and leave the builder as it
    is: row-id counter, columns and accumulator tables are untouched. *)
Theorem Append_Build_after_Release (b : MetricsBuilder) (metrics : pmetric.Metrics) :
  released (Release b) = true
  ∧ Append (Release b) metrics
    = (Some (werror.Wrap ErrBuilderAlreadyReleased), Release b)
  ∧ Build (Release b) = (inl (werror.Wrap ErrBuilderAlreadyReleased), Release b)
  ∧ werror.Cause (werror.Wrap ErrBuilderAlreadyReleased) = ErrBuilderAlreadyReleased.
Proof.
  assert (H : released (Release b) = true).
  { unfold Release. destruct (released b) eqn:E; simpl; [exact E | reflexivity]. }
  unfold Append, Build. rewrite H. auto.
Qed.

(** C6: Release is idempotent: on a released builder it does nothing, so
    two calls equal one, and the record builder and the related data are
    each released at most once however often Release is called. *)
Theorem Release_idempotent (b : MetricsBuilder) :
  Release (Release b) = Release b
  ∧ (∀ n : nat, Nat.iter (S n) Release b = Release b)
  ∧ (rbe_released (builder (Release (Release b))) ≤ S (rbe_released (builder b)))%nat
  ∧ (rd_released (relatedData (Release (Release b)))
     ≤ S (rd_released (relatedData b)))%nat
  ∧ (if released b
     then Release b = b
     else rbe_released (builder (Release (Release b))) = S (rbe_released (builder b))
          ∧ rd_released (relatedData (Release (Release b)))
            = S (rd_released (relatedData b))).
Proof.
  assert (I : Release (Release b) = Release b).
  { unfold Release. destruct (released b) eqn:E; simpl; [rewrite E|]; reflexivity. }
  split; [exact I|]. split.
  { induction n as [|n IH]; [reflexivity|].
    change (Release (Nat.iter (S n) Release b) = Release b). rewrite IH. exact I. }
  rewrite I. unfold Release. destruct (released b); simpl; auto with lia.
Qed.

Lemma target_bound h r c :
  target h r = Some c → h = Some {| h_column := c; h_epoch := rbe_epoch r |}.
Proof.
  unfold target. destruct h as [[c' e]|]; [|discriminate]. simpl.
  destruct (Nat.eqb_spec e (rbe_epoch r)); [|discriminate].
  intros [= ->]. subst e. reflexivity.
Qed.

Lemma ready_initialised b : Ready b → initialised b.
Proof.
  intros [H1 H2 H3 H4 H5 H6 H7 H8 H9 H10 HM].
  apply target_bound in H1, H2, H3, H4, H5, H6, H7, H8, H9, H10.
  destruct b as [rel r hrb hscb hss hib hmt hnb hdb hub hat him o a rd].
  simpl in *. subst. destruct r as [e cols md acc mat n]. simpl in *. subst md.
  unfold initialised, init. simpl. unfold SetMaxDelta, Uint16DeltaBuilder.
  rewrite target_column_builder by reflexivity. reflexivity.
Qed.

Lemma init_idempotent b : initialised (snd (init b)).
Proof. apply ready_initialised, init_ready. Qed.
Lemma ready_with_columns cols b :
  Ready b → Ready (with_builder (with_columns cols (builder b)) b).
Proof.
  intros [? ? ? ? ? ? ? ? ? ? ?].
  split; simpl; rewrite ?target_with_columns; assumption.
Qed.

Lemma length_row_entries ID rid sid m d :
  length (row_entries ID rid sid m d)
  = if kind_specific d then (if handled (Metric m) then 1 else 0)%nat else 1%nat.
Proof.
  unfold row_entries, kind_entries, handled, gain.
  destruct d; destruct (pmetric.Data (Metric m)); reflexivity.
Qed.

Lemma append_metrics_lengths d rows l b l' b' :
  Ready b → append_metrics rows l b = (None, l', b') →
  length (column d b')
  = (length (column d b)
     + if kind_specific d
       then length (filter (λ row, handled (Metric row) = true) rows)
       else length rows)%nat.
Proof.
  revert l b. induction rows as [|m rows IH]; intros l b R; simpl.
  - intros [= <- <-]. destruct (kind_specific d); lia.
  - destruct (append_metric m l b) as [[[e|] l1] b1] eqn:H1; [discriminate|].
    destruct (append_metric_ok _ _ _ _ _ R H1) as (E & _).
    intros H. rewrite (IH _ _ (eff_ready _ _ _ E R) H), (eff_columns _ _ _ E).
    rewrite length_app, length_row_entries.
    rewrite filter_cons. destruct (kind_specific d); [|lia].
    destruct (decide (handled (Metric m) = true)) as [Hh|Hh].
    + rewrite Hh. simpl. lia.
    + destruct (handled (Metric m)); [congruence|]. lia.
Qed.

Lemma init_returns b : init b = (None, snd (init b)).
Proof. reflexivity. Qed.

(** The number of entries a successful Append adds to a column. *)
Lemma Append_lengths c b metrics b' :
  released b = false → Ready b → Append b metrics = (None, b') →
  length (column c b')
  = (length (column c b)
     + if kind_specific c
       then length (filter (λ row, handled (Metric row) = true) (rows_of b metrics))
       else length (rows_of b metrics))%nat.
Proof.
  intros Hr R H. destruct (Append_loop _ _ _ _ Hr H) as [l' L].
  destruct (entering_frame b metrics) as (R0 & _ & B0 & _).
  rewrite (append_metrics_lengths c _ _ _ _ _ (R0 R) L).
  unfold column. rewrite B0. reflexivity.
Qed.

(** C7: when the materialisation of the record fails in Build on a
    builder that is not released, Build re-runs [init] on the record
    builder as the failure left it and returns the failure.  The builder
    is then ready: each of its ten pointers reaches the current builder of
    its column and the id column's maximum delta is 1 again; it is not
    released, its columns are empty and its related data untouched.  It
    remains usable: a subsequent Append is not refused as released and
    writes every row into all ten columns of the new record, and a
    subsequent Build is not refused either; both leave it ready and not
    released. *)
Theorem Build_failure_reinitialises (b : MetricsBuilder) (err : error)
    (r : RecordBuilderExt) :
  released b = false → NewRecord (builder b) = (inl err, r) →
  let b' := snd (init (with_builder r b)) in
  Build b = (inl err, b')
  ∧ Ready b'
  ∧ initialised b'
  ∧ released b' = false
  ∧ (∀ c, column c b' = [])
  ∧ relatedData b' = relatedData b
  ∧ (∀ metrics e b'', Append b' metrics = (Some e, b'') →
       werror.Cause e = ErrColumnAppend ∧ released b'' = false ∧ Ready b'')
  ∧ (∀ metrics b'', Append b' metrics = (None, b'') →
       Ready b'' ∧ released b'' = false
       ∧ column constants.ID b''
         = (λ i : nat, Some (CUint16 (uint16 (Z.of_nat i))))
             <$> seq 0 (length (rows_of b' metrics))
       ∧ ∀ c, length (column c b'')
              = if kind_specific c
                then length (filter (λ row, handled (Metric row) = true)
                                    (rows_of b' metrics))
                else length (rows_of b' metrics))
  ∧ (∀ e b'', Build b' = (inl e, b'') →
       e = ErrBuildFailure ∧ released b'' = false ∧ Ready b'')
  ∧ (∀ record b'', Build b' = (inr record, b'') → released b'' = false ∧ Ready b'').
Proof.
  intros Hr HN b'.
  assert (Hr' : released b' = false) by exact Hr.
  assert (R : Ready b') by apply init_ready.
  assert (Hi : initialised b') by apply init_idempotent.
  split; [unfold Build; rewrite Hr, HN; reflexivity|].
  split; [exact R|]. split; [exact Hi|]. split; [exact Hr'|].
  assert (Cols : rbe_columns r = no_columns).
  { revert HN. unfold NewRecord. destruct (rbe_materializes _ _ _); [discriminate|].
    intros [= _ <-]. reflexivity. }
  assert (E : ∀ c, column c b' = []).
  { intros c. unfold column, b', init. simpl. unfold SetMaxDelta, Uint16DeltaBuilder.
    rewrite target_column_builder by reflexivity. simpl. rewrite Cols. reflexivity. }
  split; [exact E|]. split; [reflexivity|].
  split; [|split; [|split]].
  - intros metrics e b'' H. destruct (Append_loop _ _ _ _ Hr' H) as [l' L].
    destruct (entering_frame b' metrics) as (R0 & L0 & _ & _).
    destruct (append_metrics_any _ _ _ _ _ _ (R0 R) L) as (R'' & Lb & C).
    split; [apply (C e eq_refl)|]. split; [rewrite Lb, L0; exact Hr' | exact R''].
  - intros metrics b'' H.
    destruct (Append_ids _ _ _ _ Hr' R H) as (k & _ & Hn & Hc & R'').
    split; [exact R''|]. split.
    { destruct (Append_loop _ _ _ _ Hr' H) as [l' L].
      destruct (entering_frame b' metrics) as (R0 & L0 & _ & _).
      destruct (append_metrics_any _ _ _ _ _ _ (R0 R) L) as (_ & Lb & _).
      rewrite Lb, L0. exact Hr'. }
    split.
    + rewrite Hc, (Hn eq_refl), E. reflexivity.
    + intros c. rewrite (Append_lengths c _ _ _ Hr' R H), E. reflexivity.
  - intros e b'' HB. unfold Build in HB. rewrite Hr' in HB.
    destruct (NewRecord (builder b')) as [[e1|record] r1] eqn:EN; [|discriminate HB].
    rewrite init_returns in HB. injection HB as <- <-.
    split; [|split; [exact Hr' | exact (init_ready (with_builder r1 b'))]].
    revert EN. unfold NewRecord. destruct (rbe_materializes _ _ _); [discriminate|].
    intros [= <- _]. reflexivity.
  - intros record b'' HB. unfold Build in HB. rewrite Hr' in HB.
    destruct (NewRecord (builder b')) as [[e1|record1] r1] eqn:EN.
    { rewrite init_returns in HB. discriminate HB. }
    injection HB as _ <-. split; [exact Hr'|].
    revert EN. unfold NewRecord. destruct (rbe_materializes _ _ _); [|discriminate].
    intros [= _ <-]. apply ready_with_columns, R.
Qed.

Lemma Build_failure_reinitialises_witness :
  released (builder_on outdated_record_builder) = false
  ∧ NewRecord (builder (builder_on outdated_record_builder))
    = (inl ErrBuildFailure,
       snd (NewRecord (builder (builder_on outdated_record_builder))))
  ∧ Build (builder_on outdated_record_builder)
    = (inl ErrBuildFailure,
       snd (init (with_builder
                    (snd (NewRecord (builder (builder_on outdated_record_builder))))
                    (builder_on outdated_record_builder))))
  ∧ Ready
      (snd (init (with_builder
                    (snd (NewRecord (builder (builder_on outdated_record_builder))))
                    (builder_on outdated_record_builder))))
  ∧ initialised
      (snd (init (with_builder
                    (snd (NewRecord (builder (builder_on outdated_record_builder))))
                    (builder_on outdated_record_builder)))).
Proof.
  assert (H1 : released (builder_on outdated_record_builder) = false) by reflexivity.
  assert (H2 : NewRecord (builder (builder_on outdated_record_builder))
               = (inl ErrBuildFailure,
                  snd (NewRecord (builder (builder_on outdated_record_builder)))))
    by (vm_compute; reflexivity).
  split; [exact H1|]. split; [exact H2|].
  destruct (Build_failure_reinitialises _ _ _ H1 H2) as (B & R & I & _).
  split; [exact B|]. split; [exact R | exact I].
Defined.

(** After the failed Build the rows of the next Append reach all ten
    columns of the record; through the pointers held before the failure
    they would reach none. *)
Example rows_after_failed_Build :
  let b := builder_on outdated_record_builder in
  column constants.ID (snd (Append (snd (Build b)) known_batch))
  = [Some (CUint16 0); Some (CUint16 1)]
  ∧ (λ c, length (column c (snd (Append (snd (Build b)) known_batch))))
      <$> constants.all
    = [2; 2; 2; 2; 2; 2; 2; 2; 2; 2]%nat
  ∧ (λ c, length (column c (snd (Append (with_builder (snd (NewRecord (builder b))) b)
                                    known_batch))))
      <$> constants.all
    = [0; 0; 0; 0; 0; 0; 0; 0; 0; 0]%nat
  ∧ match fst (Build (snd (Append (snd (Build b)) known_batch))) with
    | inr record =>
        record constants.ID = [Some (CUint16 0); Some (CUint16 1)]
        ∧ record constants.Name = [Some (CString "a"); Some (CString "b")]
        ∧ record constants.IsMonotonic = [None; Some (CBool true)]
    | inl _ => False
    end.
Proof. vm_compute. repeat split. Qed.
(** Append and Build keep a ready builder ready, whatever they return. *)
Lemma Append_ready b metrics : Ready b → Ready (snd (Append b metrics)).
Proof.
  intros R. destruct (released b) eqn:Hr.
  - unfold Append. rewrite Hr. exact R.
  - destruct (Append b metrics) as [err b'] eqn:H.
    destruct (Append_ids _ _ _ _ Hr R H) as (_ & _ & _ & _ & R'). exact R'.
Qed.

Lemma Build_ready b : Ready b → Ready (snd (Build b)).
Proof.
  intros R. unfold Build. destruct (released b); [exact R|].
  destruct (NewRecord (builder b)) as [[err|record] r] eqn:E.
  - rewrite init_returns. exact (init_ready (with_builder r b)).
  - revert E. unfold NewRecord. destruct (rbe_materializes _ _ _); [|discriminate].
    intros [= _ <-]. simpl. apply ready_with_columns, R.
Qed.

Example example_builder_constructed :
  NewMetricsBuilder open_record_builder example_config example_stats
  = Returned (inr example_builder)
  ∧ NewMetricsBuilder open_record_builder failing_config example_stats
    = Panicked ErrColumnAppend.
Proof. split; vm_compute; reflexivity. Qed.

(** ** Further properties of the builder *)

Lemma ready_Release b : Ready b → Ready (Release b).
Proof.
  intros R. unfold Release. destruct (released b); [exact R|].
  destruct R as [? ? ? ? ? ? ? ? ? ? ?]. split; assumption.
Qed.

(** The released flag and the optimizer are not touched by the loop,
    whatever the state of the pointers. *)
Lemma number_dps_flags ID dps b :
  released (foldl (λ b dp, on_relatedData (NumberDP_Append ID dp) b) b dps)
  = released b
  ∧ optimizer (foldl (λ b dp, on_relatedData (NumberDP_Append ID dp) b) b dps)
    = optimizer b.
Proof.
  revert b. induction dps as [|dp dps IH]; intros b; simpl; [auto|].
  destruct (IH (on_relatedData (NumberDP_Append ID dp) b)) as [-> ->]. auto.
Qed.

Lemma append_kind_flags ID m b :
  released (append_kind ID m b) = released b
  ∧ optimizer (append_kind ID m b) = optimizer b.
Proof.
  unfold append_kind. cbv zeta.
  repeat match goal with |- context [if ?c then _ else _] => destruct c end;
    try (match goal with
         | |- context [foldl _ ?b0 ?dps] =>
             destruct (number_dps_flags ID dps b0) as [-> ->]
         end); auto.
Qed.

Lemma append_metric_flags m l b :
  released (snd (append_metric m l b)) = released b
  ∧ optimizer (snd (append_metric m l b)) = optimizer b.
Proof.
  unfold append_metric, resource_group, scope_group, Accumulator_Append,
    AppendWithID, AppendWithAttrsID, append_struct. cbv zeta.
  repeat match goal with
         | |- context [if ?c then _ else _] => destruct c
         | |- context [match ?c with Some _ => _ | None => _ end] => destruct c
         end; simpl; auto;
    match goal with
    | |- context [append_kind ?i ?m ?b0] =>
        destruct (append_kind_flags i m b0) as [-> ->]; auto
    end.
Qed.

Lemma append_metrics_flags rows l b :
  released (snd (append_metrics rows l b)) = released b
  ∧ optimizer (snd (append_metrics rows l b)) = optimizer b.
Proof.
  revert l b. induction rows as [|m rows IH]; intros l b; simpl; [auto|].
  pose proof (append_metric_flags m l b) as F.
  destruct (append_metric m l b) as [[[e|] l1] b1]; simpl in F; [exact F|].
  destruct (IH l1 b1) as [-> ->]. exact F.
Qed.

Lemma Append_flags b metrics :
  released (snd (Append b metrics)) = released b
  ∧ optimizer (snd (Append b metrics)) = optimizer b.
Proof.
  unfold Append. destruct (released b) eqn:Hr; [simpl; auto|]. cbv zeta.
  match goal with
  | |- context [append_metrics ?rows ?l ?b0] =>
      pose proof (append_metrics_flags rows l b0) as F;
      destruct (append_metrics rows l b0) as [[o l'] b']
  end.
  simpl in *. destruct F as [-> ->].
  destruct (analyzer b); simpl; auto.
Qed.

Lemma Build_flags b :
  released (snd (Build b)) = released b
  ∧ optimizer (snd (Build b)) = optimizer b
  ∧ analyzer (snd (Build b)) = analyzer b
  ∧ relatedData (snd (Build b)) = relatedData b.
Proof.
  unfold Build. destruct (released b) eqn:Hr; [simpl; auto|].
  destruct (NewRecord (builder b)) as [[err|record] r]; simpl; auto.
Qed.

(** A released builder is a terminal state: every further call of Append,
    Build or Release leaves it exactly as it is. *)
Lemma released_is_terminal (calls : list Call) (b : MetricsBuilder) :
  released b = true → run calls b = b.
Proof.
  intros Hr. unfold run. induction calls as [|c calls IH]; simpl; [reflexivity|].
  assert (E : call c b = b).
  { destruct c; simpl.
    - unfold Append. rewrite Hr. reflexivity.
    - unfold Build. rewrite Hr. reflexivity.
    - unfold Release. rewrite Hr. reflexivity. }
  rewrite E. exact IH.
Qed.

(** Only Release releases: after any sequence of calls on a builder that
    is not released, the builder is released exactly when the sequence
    contains a Release; Append and Build never set or clear the flag,
    whether they succeed or fail.  Once the sequence contains a Release,
    no further call changes the builder any more. *)
Theorem released_only_by_Release (calls : list Call) (b : MetricsBuilder) :
  released b = false →
  released (run calls b) = existsb is_release calls
  ∧ (existsb is_release calls = true →
     ∀ more, run more (run calls b) = run calls b).
Proof.
  intros Hr.
  assert (F : released (run calls b) = existsb is_release calls).
  { unfold run. revert b Hr. induction calls as [|c calls IH]; intros b Hr; simpl.
    - exact Hr.
    - destruct c; simpl.
      + apply IH. rewrite (proj1 (Append_flags b metrics)). exact Hr.
      + apply IH. rewrite (proj1 (Build_flags b)). exact Hr.
      + assert (Hb : released (Release b) = true)
          by (unfold Release; rewrite Hr; reflexivity).
        fold (run calls (Release b)).
        rewrite (released_is_terminal calls _ Hb). exact Hb. }
  split; [exact F|].
  intros E more. apply released_is_terminal. rewrite F. exact E.
Qed.

Lemma released_only_by_Release_witness :
  released example_builder = false
  ∧ released (run [CallAppend scenario_batch; CallBuild] example_builder) = false
  ∧ released (run [CallAppend scenario_batch; CallRelease; CallBuild] example_builder)
    = true
  ∧ (∀ more,
       run more (run [CallAppend scenario_batch; CallRelease; CallBuild] example_builder)
       = run [CallAppend scenario_batch; CallRelease; CallBuild] example_builder).
Proof.
  assert (H : released example_builder = false) by reflexivity.
  split; [exact H|]. split; [|split].
  - exact (proj1 (released_only_by_Release [CallAppend scenario_batch; CallBuild] _ H)).
  - exact (proj1 (released_only_by_Release
                    [CallAppend scenario_batch; CallRelease; CallBuild] _ H)).
  - exact (proj2 (released_only_by_Release
                    [CallAppend scenario_batch; CallRelease; CallBuild] _ H)
             eq_refl).
Defined.

Lemma call_ready c b : Ready b → Ready (call c b).
Proof.
  intros R. destruct c; simpl.
  - apply Append_ready, R.
  - apply Build_ready, R.
  - apply ready_Release, R.
Qed.

Lemma run_ready calls b : Ready b → Ready (run calls b).
Proof.
  unfold run. revert b. induction calls as [|c calls IH]; intros b R; simpl; [exact R|].
  apply IH, call_ready, R.
Qed.

(** NewMetricsBuilder never returns an error: it panics, with the error
    of NewRelatedData, exactly when NewRelatedData fails ([init], its
    other source of an error, always returns nil); otherwise it returns a
    builder that holds the related data NewRelatedData made, is not
    released, holds the record builder's entries unchanged, uses the
    configured sorter and has an analyzer exactly when SchemaStatsEnabled
    is set.  That builder is ready, and so is every builder reached from
    it by any sequence of Append, Build and Release calls, failed ones
    included: each of its ten pointers reaches the current builder of its
    column and the id column's maximum delta is 1. *)
Theorem reachable_builders_ready (rBuilder : RecordBuilderExt) (cfg : Config)
    (stats : ProducerStats) (calls : list Call) :
  match NewMetricsBuilder rBuilder cfg stats with
  | Panicked err => NewRelatedData cfg stats = inl err
  | Returned (inl _) => False
  | Returned (inr b) =>
      NewRelatedData cfg stats = inr (relatedData b)
      ∧ released b = false
      ∧ (∀ c, column c b = rbe_columns rBuilder c)
      ∧ optimizer b = Metric_Sorter cfg
      ∧ (analyzer b = None ↔ SchemaStatsEnabled stats = false)
      ∧ Ready b
      ∧ Ready (run calls b)
  end.
Proof.
  unfold NewMetricsBuilder.
  destruct (NewRelatedData cfg stats) as [err|rd] eqn:E; [reflexivity|].
  cbv zeta. rewrite init_returns.
  assert (R : Ready (snd (init (assembled rBuilder cfg stats rd)))) by apply init_ready.
  split; [reflexivity|]. split; [reflexivity|]. split; [|split; [|split; [|split]]].
  - intros c. unfold column, init. simpl. unfold SetMaxDelta.
    destruct (target _ _); reflexivity.
  - reflexivity.
  - simpl. destruct (SchemaStatsEnabled stats); split; congruence.
  - exact R.
  - apply run_ready, R.
Qed.

(** After a successful Append every column other than the two written by
    the switch on the metric type has gained one entry per row; those two
    have gained one entry per row of a handled kind.  So the ten columns
    stay aligned exactly when every row of the batch is of a handled
    kind. *)
Theorem Append_column_lengths (b : MetricsBuilder) (metrics : pmetric.Metrics)
    (b' : MetricsBuilder) :
  released b = false → initialised b → Append b metrics = (None, b') →
  (∀ c, length (column c b')
        = (length (column c b)
           + if kind_specific c
             then length (filter (λ row, handled (Metric row) = true)
                                 (rows_of b metrics))
             else length (rows_of b metrics))%nat)
  ∧ (length (filter (λ row, handled (Metric row) = true) (rows_of b metrics))
     = length (rows_of b metrics)
     ↔ ∀ row, row ∈ rows_of b metrics → handled (Metric row) = true).
Proof.
  intros Hr Hi H. pose proof (initialised_ready _ Hi) as R. split.
  - intros c. destruct (Append_loop _ _ _ _ Hr H) as [l' L].
    destruct (entering_frame b metrics) as (R0 & _ & B0 & _).
    rewrite (append_metrics_lengths c _ _ _ _ _ (R0 R) L).
    unfold column. rewrite B0. reflexivity.
  - generalize (rows_of b metrics). intros rows. split.
    + intros E row Hin. induction rows as [|r rows IH]; [inversion Hin|].
      rewrite filter_cons in E.
      pose proof (length_filter (λ row, handled (Metric row) = true) rows) as Le.
      destruct (decide (handled (Metric r) = true)) as [Hh|Hh]; simpl in E.
      * apply elem_of_cons in Hin as [->|Hin]; [exact Hh|]. apply IH; [lia|exact Hin].
      * lia.
    + intros A. induction rows as [|r rows IH]; [reflexivity|].
      rewrite filter_cons. rewrite decide_True by (apply A; left).
      simpl. f_equal. apply IH. intros row Hin. apply A. right. exact Hin.
Qed.

Lemma Append_column_lengths_witness :
  released example_builder = false ∧ initialised example_builder
  ∧ Append example_builder scenario_batch
    = (None, snd (Append example_builder scenario_batch))
  ∧ length (column constants.Name (snd (Append example_builder scenario_batch))) = 3%nat
  ∧ length (column constants.IsMonotonic (snd (Append example_builder scenario_batch)))
    = 2%nat.
Proof.
  assert (H1 : released example_builder = false) by reflexivity.
  assert (H2 : initialised example_builder) by reflexivity.
  assert (F : fst (Append example_builder scenario_batch) = None)
    by (vm_compute; reflexivity).
  assert (H3 : Append example_builder scenario_batch
               = (None, snd (Append example_builder scenario_batch)))
    by (revert F; destruct (Append example_builder scenario_batch); simpl;
        intros ->; reflexivity).
  split; [exact H1|]. split; [exact H2|]. split; [exact H3|].
  destruct (Append_column_lengths example_builder scenario_batch _ H1 H2 H3) as [L _].
  split.
  - rewrite (L constants.Name). vm_compute. reflexivity.
  - rewrite (L constants.IsMonotonic). vm_compute. reflexivity.
Defined.

Lemma map_fmap {A B} (f : A → B) (l : list A) : map f l = f <$> l.
Proof. induction l as [|x l IH]; simpl; [reflexivity | rewrite IH; reflexivity]. Qed.

Lemma number_dps_tables ID dps b :
  let b' := foldl (λ b dp, on_relatedData (NumberDP_Append ID dp) b) b dps in
  rd_number (relatedData b') = rd_number (relatedData b) ++ (pair ID <$> dps)
  ∧ rd_summary (relatedData b') = rd_summary (relatedData b)
  ∧ rd_histogram (relatedData b') = rd_histogram (relatedData b)
  ∧ rd_ehistogram (relatedData b') = rd_ehistogram (relatedData b).
Proof.
  revert b. induction dps as [|dp dps IH]; intros b; simpl.
  - rewrite app_nil_r. auto.
  - destruct (IH (on_relatedData (NumberDP_Append ID dp) b)) as (-> & -> & -> & ->).
    simpl. rewrite <- app_assoc. auto.
Qed.

(** What the switch on the metric type adds to the data-point tables. *)
Lemma append_kind_tables ID m b :
  let b' := append_kind ID m b in
  rd_number (relatedData b')
  = rd_number (relatedData b) ++ (pair ID <$> number_points m)
  ∧ rd_summary (relatedData b')
    = rd_summary (relatedData b) ++ (pair ID <$> summary_points m)
  ∧ rd_histogram (relatedData b')
    = rd_histogram (relatedData b) ++ (pair ID <$> histogram_points m)
  ∧ rd_ehistogram (relatedData b')
    = rd_ehistogram (relatedData b) ++ (pair ID <$> ehistogram_points m).
Proof.
  cbv zeta. unfold number_points, summary_points, histogram_points, ehistogram_points.
  destruct (pmetric.Data m) eqn:E.
  all: try (rewrite (append_kind_other _ _ _ _ E); simpl; rewrite !app_nil_r; auto).
  all: unfold append_kind, pmetric.Type_, pmetric.GetGauge, pmetric.GetSum,
         pmetric.GetSummary, pmetric.GetHistogram, pmetric.GetExponentialHistogram;
       rewrite E; cbn [Z.eqb pmetric.MetricTypeGauge pmetric.MetricTypeSum
         pmetric.MetricTypeSummary pmetric.MetricTypeHistogram
         pmetric.MetricTypeExponentialHistogram pmetric.MetricTypeEmpty Pos.eqb];
       cbv zeta.
  all: try match goal with
       | |- context [foldl _ ?b0 ?dps] =>
           destruct (number_dps_tables ID dps b0) as (-> & -> & -> & ->)
       end.
  all: simpl; rewrite ?map_fmap, ?app_nil_r; auto.
Qed.

(** A successful iteration reaches the switch with the data-point tables
    as it found them. *)
Lemma append_metric_shape m l b l' b' :
  append_metric m l b = (None, l', b') →
  ∃ b8, b' = append_kind (metricID l) (Metric m) b8
        ∧ metricID l' = uint16 (metricID l + 1)
        ∧ rd_number (relatedData b8) = rd_number (relatedData b)
        ∧ rd_summary (relatedData b8) = rd_summary (relatedData b)
        ∧ rd_histogram (relatedData b8) = rd_histogram (relatedData b)
        ∧ rd_ehistogram (relatedData b8) = rd_ehistogram (relatedData b).
Proof.
  unfold append_metric, resource_group, scope_group, Accumulator_Append,
    AppendWithID, AppendWithAttrsID, append_struct. cbv zeta.
  repeat match goal with
         | |- context [if ?c then _ else _] => destruct c
         | |- context [match ?c with Some _ => _ | None => _ end] => destruct c
         end; simpl; try discriminate;
    intros [= <- <-]; eexists; (split; [reflexivity|]); simpl; auto.
Qed.

Lemma keyed_points_from_cons {A} start (points : pmetric.Metric → list A) m rows :
  0 ≤ start < 65536 →
  keyed_points_from start points (m :: rows)
  = (pair start <$> points (Metric m))
    ++ keyed_points_from (uint16 (start + 1)) points rows.
Proof.
  intros H. unfold keyed_points_from. rewrite imap_cons. simpl.
  rewrite Z.add_0_r, (uint16_small _ H). f_equal. f_equal.
  apply imap_ext. intros i row _. simpl. rewrite uint16_succ. do 3 f_equal. lia.
Qed.

Lemma append_metrics_tables rows l b l' b' :
  0 ≤ metricID l < 65536 → append_metrics rows l b = (None, l', b') →
  rd_number (relatedData b')
  = rd_number (relatedData b) ++ keyed_points_from (metricID l) number_points rows
  ∧ rd_summary (relatedData b')
    = rd_summary (relatedData b) ++ keyed_points_from (metricID l) summary_points rows
  ∧ rd_histogram (relatedData b')
    = rd_histogram (relatedData b)
      ++ keyed_points_from (metricID l) histogram_points rows
  ∧ rd_ehistogram (relatedData b')
    = rd_ehistogram (relatedData b)
      ++ keyed_points_from (metricID l) ehistogram_points rows.
Proof.
  revert l b. induction rows as [|m rows IH]; intros l b Hl; simpl.
  - intros [= <- <-]. unfold keyed_points_from. simpl. rewrite !app_nil_r. auto.
  - destruct (append_metric m l b) as [[[e|] l1] b1] eqn:H1; [discriminate|].
    destruct (append_metric_shape _ _ _ _ _ H1) as (b8 & -> & M & T1 & T2 & T3 & T4).
    destruct (append_kind_tables (metricID l) (Metric m) b8) as (K1 & K2 & K3 & K4).
    intros H.
    assert (Hl1 : 0 ≤ metricID l1 < 65536) by (rewrite M; apply uint16_range).
    destruct (IH _ _ Hl1 H) as (I1 & I2 & I3 & I4).
    rewrite I1, I2, I3, I4, K1, K2, K3, K4, T1, T2, T3, T4, M.
    rewrite !(keyed_points_from_cons _ _ _ _ Hl), <- !app_assoc. auto.
Qed.

Lemma Append_tables b metrics b' :
  released b = false → Append b metrics = (None, b') →
  rd_number (relatedData b')
  = rd_number (relatedData b) ++ keyed_points number_points (rows_of b metrics)
  ∧ rd_summary (relatedData b')
    = rd_summary (relatedData b) ++ keyed_points summary_points (rows_of b metrics)
  ∧ rd_histogram (relatedData b')
    = rd_histogram (relatedData b)
      ++ keyed_points histogram_points (rows_of b metrics)
  ∧ rd_ehistogram (relatedData b')
    = rd_ehistogram (relatedData b)
      ++ keyed_points ehistogram_points (rows_of b metrics).
Proof.
  intros Hr H. destruct (Append_loop _ _ _ _ Hr H) as [l' L].
  destruct (entering_frame b metrics) as (_ & _ & _ & D0).
  assert (I : 0 ≤ metricID initial_locals < 65536) by (simpl; lia).
  destruct (append_metrics_tables _ _ _ _ _ I L) as (T1 & T2 & T3 & T4).
  rewrite D0 in T1, T2, T3, T4. auto.
Qed.

(** A successful Append adds to each data-point table the points of the
    rows of the matching kind, in row order, each under the id of its row
    (gauges and sums feed the number table); rows of other kinds add none.
    Every foreign key it writes is a row id it has written to the id
    column in the same call, at the position of the row the point belongs
    to. *)
Theorem Append_data_points (b : MetricsBuilder) (metrics : pmetric.Metrics)
    (b' : MetricsBuilder) :
  released b = false → initialised b → Append b metrics = (None, b') →
  rd_number (relatedData b')
  = rd_number (relatedData b) ++ keyed_points number_points (rows_of b metrics)
  ∧ rd_summary (relatedData b')
    = rd_summary (relatedData b) ++ keyed_points summary_points (rows_of b metrics)
  ∧ rd_histogram (relatedData b')
    = rd_histogram (relatedData b)
      ++ keyed_points histogram_points (rows_of b metrics)
  ∧ rd_ehistogram (relatedData b')
    = rd_ehistogram (relatedData b)
      ++ keyed_points ehistogram_points (rows_of b metrics)
  ∧ ∀ (A : Type) (points : pmetric.Metric → list A) (parent : Z) (dp : A),
      (parent, dp) ∈ keyed_points points (rows_of b metrics) →
      ∃ (i : nat) row,
        rows_of b metrics !! i = Some row
        ∧ dp ∈ points (Metric row)
        ∧ column constants.ID b' !! (length (column constants.ID b) + i)%nat
          = Some (Some (CUint16 parent)).
Proof.
  intros Hr Hi H. pose proof (initialised_ready _ Hi) as R.
  destruct (Append_tables _ _ _ Hr H) as (T1 & T2 & T3 & T4).
  split; [exact T1|]. split; [exact T2|]. split; [exact T3|]. split; [exact T4|].
  intros A points parent dp Hin.
  destruct (Append_ids _ _ _ _ Hr R H) as (k & _ & Hn & Hc & _).
  rewrite (Hn eq_refl) in Hc.
  unfold keyed_points in Hin. apply list_elem_of_join in Hin as (ps & Hdp & Hps).
  apply elem_of_lookup_imap in Hps as (i & row & -> & Hrow).
  apply list_elem_of_fmap in Hdp as (dp' & [= -> ->] & Hdp).
  exists i, row. split; [exact Hrow|]. split; [exact Hdp|].
  rewrite Hc, lookup_app_r by lia.
  replace (length (column constants.ID b) + i - length (column constants.ID b))%nat
    with i by lia.
  rewrite lookup_id_entries by (apply lookup_lt_Some in Hrow; exact Hrow).
  reflexivity.
Qed.

Lemma Append_data_points_witness :
  released example_builder = false ∧ initialised example_builder
  ∧ Append example_builder scenario_batch
    = (None, snd (Append example_builder scenario_batch))
  ∧ rd_number (relatedData (snd (Append example_builder scenario_batch)))
    = [(0, a_point); (1, a_point); (1, a_point)]
  ∧ rd_summary (relatedData (snd (Append example_builder scenario_batch))) = [].
Proof.
  assert (H1 : released example_builder = false) by reflexivity.
  assert (H2 : initialised example_builder) by reflexivity.
  assert (F : fst (Append example_builder scenario_batch) = None)
    by (vm_compute; reflexivity).
  assert (H3 : Append example_builder scenario_batch
               = (None, snd (Append example_builder scenario_batch)))
    by (revert F; destruct (Append example_builder scenario_batch); simpl;
        intros ->; reflexivity).
  split; [exact H1|]. split; [exact H2|]. split; [exact H3|].
  destruct (Append_data_points example_builder scenario_batch _ H1 H2 H3)
    as (N & S & _).
  split.
  - rewrite N. vm_compute. reflexivity.
  - rewrite S. vm_compute. reflexivity.
Defined.





Example failed_Append_columns :
  column constants.ID (snd (Append picky_builder two_resources_batch))
  = [Some (CUint16 0); Some (CUint16 1)]
  ∧ column constants.Resource (snd (Append picky_builder two_resources_batch))
    = [Some (CResource 0 None 0)]
  ∧ column constants.Name (snd (Append picky_builder two_resources_batch))
    = [Some (CString "a")].
Proof. vm_compute. repeat split. Qed.

(** Row ids are per call: a second Append before a Build starts again at
    0, so the id column then holds the ids of the first batch followed by
    the ids of the second, and the id 0 twice when neither batch is
    empty. *)
Theorem Append_twice_restarts_ids (b : MetricsBuilder) (m1 m2 : pmetric.Metrics)
    (b1 b2 : MetricsBuilder) :
  released b = false → initialised b →
  Append b m1 = (None, b1) → Append b1 m2 = (None, b2) →
  column constants.ID b2
  = column constants.ID b
    ++ ((λ i : nat, Some (CUint16 (uint16 (Z.of_nat i))))
          <$> seq 0 (length (rows_of b m1)))
    ++ ((λ i : nat, Some (CUint16 (uint16 (Z.of_nat i))))
          <$> seq 0 (length (rows_of b m2)))
  ∧ (rows_of b m1 ≠ [] → rows_of b m2 ≠ [] →
     ¬ NoDup (drop (length (column constants.ID b)) (column constants.ID b2))).
Proof.
  intros Hr Hi H1 H2. pose proof (initialised_ready _ Hi) as R.
  destruct (Append_ids _ _ _ _ Hr R H1) as (k1 & _ & Hn1 & Hc1 & R1).
  pose proof (Append_flags b m1) as [Fr Fo]. rewrite H1 in Fr, Fo. simpl in Fr, Fo.
  assert (Hr1 : released b1 = false) by congruence.
  destruct (Append_ids _ _ _ _ Hr1 R1 H2) as (k2 & _ & Hn2 & Hc2 & _).
  rewrite (Hn1 eq_refl) in Hc1. rewrite (Hn2 eq_refl) in Hc2.
  assert (Er : rows_of b1 m2 = rows_of b m2) by (unfold rows_of; rewrite Fo; reflexivity).
  rewrite Er in Hc2.
  assert (E : column constants.ID b2
              = column constants.ID b
                ++ id_entries 0 (length (rows_of b m1))
                ++ id_entries 0 (length (rows_of b m2)))
    by (rewrite Hc2, Hc1, <- app_assoc; reflexivity).
  split; [exact E|].
  intros N1 N2 ND. rewrite E, drop_app_length in ND.
  assert (L1 : (0 < length (rows_of b m1))%nat)
    by (destruct (rows_of b m1); [congruence | simpl; lia]).
  assert (L2 : (0 < length (rows_of b m2))%nat)
    by (destruct (rows_of b m2); [congruence | simpl; lia]).
  assert (A : (id_entries 0 (length (rows_of b m1))
               ++ id_entries 0 (length (rows_of b m2))) !! 0%nat
              = Some (Some (CUint16 0))).
  { rewrite lookup_app_l by (rewrite length_id_entries; exact L1).
    rewrite lookup_id_entries by exact L1. reflexivity. }
  assert (B : (id_entries 0 (length (rows_of b m1))
               ++ id_entries 0 (length (rows_of b m2))) !! length (rows_of b m1)
              = Some (Some (CUint16 0))).
  { rewrite lookup_app_r by (rewrite length_id_entries; lia).
    rewrite length_id_entries, Nat.sub_diag.
    rewrite lookup_id_entries by exact L2. reflexivity. }
  pose proof (NoDup_lookup _ _ _ _ ND A B). lia.
Qed.

Lemma Append_twice_restarts_ids_witness :
  released example_builder = false ∧ initialised example_builder
  ∧ Append example_builder known_batch
    = (None, snd (Append example_builder known_batch))
  ∧ Append (snd (Append example_builder known_batch)) known_batch
    = (None, snd (Append (snd (Append example_builder known_batch)) known_batch))
  ∧ column constants.ID
      (snd (Append (snd (Append example_builder known_batch)) known_batch))
    = [Some (CUint16 0); Some (CUint16 1); Some (CUint16 0); Some (CUint16 1)].
Proof.
  assert (H1 : released example_builder = false) by reflexivity.
  assert (H2 : initialised example_builder) by reflexivity.
  assert (F : fst (Append example_builder known_batch) = None)
    by (vm_compute; reflexivity).
  assert (H3 : Append example_builder known_batch
               = (None, snd (Append example_builder known_batch)))
    by (revert F; destruct (Append example_builder known_batch); simpl;
        intros ->; reflexivity).
  assert (G : fst (Append (snd (Append example_builder known_batch)) known_batch)
              = None) by (vm_compute; reflexivity).
  assert (H4 : Append (snd (Append example_builder known_batch)) known_batch
               = (None,
                  snd (Append (snd (Append example_builder known_batch)) known_batch)))
    by (revert G;
        destruct (Append (snd (Append example_builder known_batch)) known_batch);
        simpl; intros ->; reflexivity).
  split; [exact H1|]. split; [exact H2|]. split; [exact H3|]. split; [exact H4|].
  destruct (Append_twice_restarts_ids example_builder known_batch known_batch
              _ _ H1 H2 H3 H4) as [E _].
  rewrite E. vm_compute. reflexivity.
Defined.

Lemma lookup_cells {A} (cell : Z → A → option Cell) ids (rows : list A) (i : nat) row c :
  length ids = length rows → rows !! i = Some row →
  zip_with cell ids rows !! i = Some c → ∃ id, ids !! i = Some id ∧ c = cell id row.
Proof.
  intros Hl Hrow Hz. rewrite lookup_zip_with in Hz.
  destruct (ids !! i) as [id|] eqn:Eid; [|discriminate].
  simpl in Hz. rewrite Hrow in Hz. simpl in Hz. injection Hz as <-.
  exists id. auto.
Qed.

(** Referential integrity of the resource and scope ids: after a
    successful Append, the id written in the resource (resp. scope)
    column for a row with a non-empty grouping identifier is one the
    resource (resp. scope) accumulator returned during the call, for the
    attribute set of a row of the same batch, at or before it, with the
    same grouping identifier. *)
Theorem Append_group_ids_resolve (b : MetricsBuilder) (metrics : pmetric.Metrics)
    (b' : MetricsBuilder) :
  released b = false → initialised b → Append b metrics = (None, b') →
  ∀ (i : nat) row,
    rows_of b metrics !! i = Some row →
    (∀ rid, column constants.Resource b' !! (length (column constants.Resource b) + i)%nat
            = Some (resource_cell rid row) →
            ResourceMetricsID row ≠ ""%string →
            ∃ (j : nat) row',
              (j ≤ i)%nat ∧ rows_of b metrics !! j = Some row'
              ∧ ResourceMetricsID row' = ResourceMetricsID row
              ∧ (rid, pcommon.Resource_Attributes (Resource row'))
                ∈ calls_since (length (acc_calls (rd_resource (relatedData b))))
                              (rd_resource (relatedData b')))
    ∧ (∀ sid, column constants.Scope b' !! (length (column constants.Scope b) + i)%nat
              = Some (scope_cell sid row) →
              ScopeMetricsID row ≠ ""%string →
              ∃ (j : nat) row',
                (j ≤ i)%nat ∧ rows_of b metrics !! j = Some row'
                ∧ ScopeMetricsID row' = ScopeMetricsID row
                ∧ (sid, pcommon.Scope_Attributes (Scope row'))
                  ∈ calls_since (length (acc_calls (rd_scope (relatedData b))))
                                (rd_scope (relatedData b'))).
Proof.
  intros Hr Hi H i row Hrow. pose proof (initialised_ready _ Hi) as R.
  destruct (Append_groups _ _ _ Hr R H) as ((S1 & C1) & (S2 & C2)).
  assert (Inv : ∀ key (attrs : FlattenedMetric → pcommon.Map) cur,
            ""%string ≠ ""%string →
            ∃ r0 : FlattenedMetric, False ∧ key r0 = ""%string
                                    ∧ (cur, attrs r0) ∈ @nil (Z * pcommon.Map))
    by congruence.
  split.
  - intros rid Hcell Hne. rewrite C1 in Hcell.
    rewrite lookup_app_r in Hcell by lia.
    replace (length (column constants.Resource b) + i
             - length (column constants.Resource b))%nat
      with i in Hcell by lia.
    destruct (lookup_cells _ _ _ _ _ _ (length_current_ids _ _ _ _ _) Hrow Hcell)
      as (id & Hid & Ec).
    assert (id = rid) by (unfold resource_cell in Ec; congruence). subst id.
    destruct (current_ids_resolve ResourceMetricsID
                (λ r, pcommon.Resource_Attributes (Resource r)) _ (λ _, False)
                _ _ [] _ S1 (Inv _ _ _) _ _ _ Hrow Hid Hne)
      as (row' & [[]|(j & Hj & Hjr)] & K & Lk).
    exists j, row'. auto.
  - intros sid Hcell Hne. rewrite C2 in Hcell.
    rewrite lookup_app_r in Hcell by lia.
    replace (length (column constants.Scope b) + i
             - length (column constants.Scope b))%nat
      with i in Hcell by lia.
    destruct (lookup_cells _ _ _ _ _ _ (length_current_ids _ _ _ _ _) Hrow Hcell)
      as (id & Hid & Ec).
    assert (id = sid) by (unfold scope_cell in Ec; congruence). subst id.
    destruct (current_ids_resolve ScopeMetricsID
                (λ r, pcommon.Scope_Attributes (Scope r)) _ (λ _, False)
                _ _ [] _ S2 (Inv _ _ _) _ _ _ Hrow Hid Hne)
      as (row' & [[]|(j & Hj & Hjr)] & K & Lk).
    exists j, row'. auto.
Qed.

Lemma Append_group_ids_resolve_witness :
  released example_builder = false ∧ initialised example_builder
  ∧ Append example_builder two_resources_batch
    = (None, snd (Append example_builder two_resources_batch))
  ∧ ∀ (i : nat) row,
      rows_of example_builder two_resources_batch !! i = Some row →
      ∀ rid,
        column constants.Resource (snd (Append example_builder two_resources_batch))
          !! (length (column constants.Resource example_builder) + i)%nat
        = Some (resource_cell rid row) →
        ResourceMetricsID row ≠ ""%string →
        ∃ (j : nat) row',
          (j ≤ i)%nat
          ∧ rows_of example_builder two_resources_batch !! j = Some row'
          ∧ ResourceMetricsID row' = ResourceMetricsID row
          ∧ (rid, pcommon.Resource_Attributes (Resource row'))
            ∈ calls_since
                (length (acc_calls (rd_resource (relatedData example_builder))))
                (rd_resource
                   (relatedData (snd (Append example_builder two_resources_batch)))).
Proof.
  assert (H1 : released example_builder = false) by reflexivity.
  assert (H2 : initialised example_builder) by reflexivity.
  assert (F : fst (Append example_builder two_resources_batch) = None)
    by (vm_compute; reflexivity).
  assert (H3 : Append example_builder two_resources_batch
               = (None, snd (Append example_builder two_resources_batch)))
    by (revert F; destruct (Append example_builder two_resources_batch); simpl;
        intros ->; reflexivity).
  split; [exact H1|]. split; [exact H2|]. split; [exact H3|].
  intros i row Hrow.
  exact (proj1 (Append_group_ids_resolve example_builder two_resources_batch _
                  H1 H2 H3 i row Hrow)).
Defined.

(** Build does not touch the related data: whether it succeeds or fails,
    the accumulator tables are as Append left them, and a following
    Append adds to them.  After Append, Build, Append the number table
    holds the points of both batches, each batch keyed by row ids that
    start at 0. *)
Theorem Build_keeps_related_data (b : MetricsBuilder) (m1 m2 : pmetric.Metrics)
    (b1 b3 : MetricsBuilder) :
  released b = false →
  Append b m1 = (None, b1) → Append (snd (Build b1)) m2 = (None, b3) →
  relatedData (snd (Build b1)) = relatedData b1
  ∧ rd_number (relatedData b3)
    = rd_number (relatedData b)
      ++ keyed_points number_points (rows_of b m1)
      ++ keyed_points number_points (rows_of b m2)
  ∧ rd_summary (relatedData b3)
    = rd_summary (relatedData b)
      ++ keyed_points summary_points (rows_of b m1)
      ++ keyed_points summary_points (rows_of b m2)
  ∧ rd_histogram (relatedData b3)
    = rd_histogram (relatedData b)
      ++ keyed_points histogram_points (rows_of b m1)
      ++ keyed_points histogram_points (rows_of b m2)
  ∧ rd_ehistogram (relatedData b3)
    = rd_ehistogram (relatedData b)
      ++ keyed_points ehistogram_points (rows_of b m1)
      ++ keyed_points ehistogram_points (rows_of b m2).
Proof.
  intros Hr H1 H3.
  pose proof (Append_flags b m1) as [Fr Fo]. rewrite H1 in Fr, Fo. simpl in Fr, Fo.
  destruct (Build_flags b1) as (Br & Bo & _ & Bd).
  assert (Hr2 : released (snd (Build b1)) = false) by congruence.
  destruct (Append_tables _ _ _ Hr H1) as (T1 & T2 & T3 & T4).
  destruct (Append_tables _ _ _ Hr2 H3) as (U1 & U2 & U3 & U4).
  assert (Er : rows_of (snd (Build b1)) m2 = rows_of b m2)
    by (unfold rows_of; rewrite Bo, Fo; reflexivity).
  rewrite Er, Bd in U1, U2, U3, U4.
  split; [exact Bd|].
  rewrite U1, U2, U3, U4, T1, T2, T3, T4, <- !app_assoc. auto.
Qed.

Lemma Build_keeps_related_data_witness :
  released example_builder = false
  ∧ Append example_builder known_batch
    = (None, snd (Append example_builder known_batch))
  ∧ Append (snd (Build (snd (Append example_builder known_batch)))) known_batch
    = (None,
       snd (Append (snd (Build (snd (Append example_builder known_batch))))
              known_batch))
  ∧ fst <$> rd_number
              (relatedData
                 (snd (Append (snd (Build (snd (Append example_builder known_batch))))
                         known_batch)))
    = [0; 1; 1; 0; 1; 1].
Proof.
  assert (H1 : released example_builder = false) by reflexivity.
  assert (F : fst (Append example_builder known_batch) = None)
    by (vm_compute; reflexivity).
  assert (H3 : Append example_builder known_batch
               = (None, snd (Append example_builder known_batch)))
    by (revert F; destruct (Append example_builder known_batch); simpl;
        intros ->; reflexivity).
  assert (G : fst (Append (snd (Build (snd (Append example_builder known_batch))))
                     known_batch) = None) by (vm_compute; reflexivity).
  assert (H4 : Append (snd (Build (snd (Append example_builder known_batch))))
                 known_batch
               = (None,
                  snd (Append (snd (Build (snd (Append example_builder known_batch))))
                         known_batch)))
    by (revert G;
        destruct (Append (snd (Build (snd (Append example_builder known_batch))))
                    known_batch);
        simpl; intros ->; reflexivity).
  split; [exact H1|]. split; [exact H3|]. split; [exact H4|].
  destruct (Build_keeps_related_data example_builder known_batch known_batch
              _ _ H1 H3 H4) as (_ & N & _).
  rewrite N. vm_compute. reflexivity.
Defined.

Lemma row_entries_conform ID rid sid m d entry :
  0 ≤ ID < 65536 → entry ∈ row_entries ID rid sid m d →
  (∀ cell, entry = Some cell →
           type_in_schema d = Some (cell_type cell) ∧ cell_in_range cell)
  ∧ (entry = None → d ≠ constants.Name → optional_in_schema d = Some true).
Proof.
  intros HID. unfold row_entries, kind_entries, gain.
  pose proof (Z.mod_pos_bound (pmetric.Type_ (Metric m)) 256 ltac:(lia)) as H8.
  destruct d; simpl; destruct (pmetric.Data (Metric m)); simpl;
    rewrite ?list_elem_of_singleton, ?elem_of_cons, ?elem_of_nil;
    intros Hin; decompose [or] Hin; try contradiction; subst entry;
    (split; [intros cell Hc | intros Hc Hn; try discriminate Hc; try reflexivity;
                              try contradiction]).
  all: try discriminate Hc.
  all: try (injection Hc as <-; split; [reflexivity | simpl; auto]).
  all: try (unfold non_empty in Hc;
            match type of Hc with
            | context [String.eqb ?s ""] => destruct (String.eqb s "")
            end; simpl in Hc; [discriminate Hc|];
            injection Hc as <-; split; [reflexivity | exact I]).
Qed.

Lemma append_metrics_entries d rows l b l' b' :
  Ready b → 0 ≤ metricID l < 65536 → append_metrics rows l b = (None, l', b') →
  ∃ tail, column d b' = column d b ++ tail
          ∧ ∀ entry, entry ∈ tail →
              ∃ ID rid sid m, 0 ≤ ID < 65536 ∧ m ∈ rows
                              ∧ entry ∈ row_entries ID rid sid m d.
Proof.
  revert l b. induction rows as [|m rows IH]; intros l b R Hl; simpl.
  - intros [= <- <-]. exists []. rewrite app_nil_r. split; [reflexivity|].
    intros entry Hin. inversion Hin.
  - destruct (append_metric m l b) as [[[e|] l1] b1] eqn:H1; [discriminate|].
    destruct (append_metric_ok _ _ _ _ _ R H1) as (E & M & _).
    assert (Hl1 : 0 ≤ metricID l1 < 65536) by (rewrite M; apply uint16_range).
    intros H. destruct (IH _ _ (eff_ready _ _ _ E R) Hl1 H) as (tail & Hc & Ht).
    exists (row_entries (metricID l) (resID l1) (scopeID l1) m d ++ tail).
    split; [rewrite Hc, (eff_columns _ _ _ E), app_assoc; reflexivity|].
    intros entry Hin. apply elem_of_app in Hin as [Hin|Hin].
    + exists (metricID l), (resID l1), (scopeID l1), m.
      split; [exact Hl|]. split; [left | exact Hin].
    + destruct (Ht entry Hin) as (ID & rid & sid & m' & HID & Hm & He).
      exists ID, rid, sid, m'. split; [exact HID|]. split; [right; exact Hm | exact He].
Qed.

(** What a successful Append writes conforms to MetricsSchema: every
    non-null entry it adds to a column is a cell of the type the schema
    declares for that column, an id fitting 16 bits and a metric type
    fitting 8 bits; and it adds a null only to a column the schema marks
    optional, or to the name column. *)
Theorem Append_respects_schema (b : MetricsBuilder) (metrics : pmetric.Metrics)
    (b' : MetricsBuilder) :
  released b = false → initialised b → Append b metrics = (None, b') →
  ∀ c entry,
    entry ∈ drop (length (column c b)) (column c b') →
    (∀ cell, entry = Some cell →
             type_in_schema c = Some (cell_type cell) ∧ cell_in_range cell)
    ∧ (entry = None → c ≠ constants.Name → optional_in_schema c = Some true).
Proof.
  intros Hr Hi H c entry Hin. pose proof (initialised_ready _ Hi) as R.
  destruct (Append_loop _ _ _ _ Hr H) as [l' L].
  destruct (entering_frame b metrics) as (R0 & _ & B0 & _).
  assert (I : 0 ≤ metricID initial_locals < 65536) by (simpl; lia).
  destruct (append_metrics_entries c _ _ _ _ _ (R0 R) I L) as (tail & Hc & Ht).
  unfold column in *. rewrite B0 in Hc. rewrite Hc, drop_app_length in Hin.
  destruct (Ht entry Hin) as (ID & rid & sid & m & HID & _ & He).
  exact (row_entries_conform _ _ _ _ _ _ HID He).
Qed.

Lemma Append_respects_schema_witness :
  released example_builder = false ∧ initialised example_builder
  ∧ Append example_builder scenario_batch
    = (None, snd (Append example_builder scenario_batch))
  ∧ ∀ c entry,
      entry ∈ drop (length (column c example_builder))
                   (column c (snd (Append example_builder scenario_batch))) →
      (∀ cell, entry = Some cell →
               type_in_schema c = Some (cell_type cell) ∧ cell_in_range cell)
      ∧ (entry = None → c ≠ constants.Name → optional_in_schema c = Some true).
Proof.
  assert (H1 : released example_builder = false) by reflexivity.
  assert (H2 : initialised example_builder) by reflexivity.
  assert (F : fst (Append example_builder scenario_batch) = None)
    by (vm_compute; reflexivity).
  assert (H3 : Append example_builder scenario_batch
               = (None, snd (Append example_builder scenario_batch)))
    by (revert F; destruct (Append example_builder scenario_batch); simpl;
        intros ->; reflexivity).
  split; [exact H1|]. split; [exact H2|]. split; [exact H3|].
  exact (Append_respects_schema example_builder scenario_batch _ H1 H2 H3).
Defined.

(** ** Metrics of a kind without data points *)








(** The scenario of the specification, its third metric of a kind pdata
    does not recognise and so an Empty one for [Append]: three rows with
    the ids 0, 1, 2; the gauge has null in both kind-specific columns, the
    sum its temporality and its monotonic flag, the third row null in
    both and no data point; one resource id is minted and used by all
    three rows. *)
Example delivered_scenario :
  fst (Append example_builder delivered_batch) = None
  ∧ (λ c, length (column c (snd (Append example_builder delivered_batch))))
      <$> constants.all
    = [3; 3; 3; 3; 3; 3; 3; 3; 3; 3]%nat
  ∧ column constants.ID (snd (Append example_builder delivered_batch))
    = [Some (CUint16 0); Some (CUint16 1); Some (CUint16 2)]
  ∧ column constants.MetricType (snd (Append example_builder delivered_batch))
    = [Some (CUint8 1); Some (CUint8 2); Some (CUint8 0)]
  ∧ column constants.AggregationTemporality
      (snd (Append example_builder delivered_batch))
    = [None; Some (CInt32 2); None]
  ∧ column constants.IsMonotonic (snd (Append example_builder delivered_batch))
    = [None; Some (CBool true); None]
  ∧ column constants.Resource (snd (Append example_builder delivered_batch))
    = [Some (CResource 0 None 0); Some (CResource 0 None 0); Some (CResource 0 None 0)]
  ∧ fst <$> rd_number (relatedData (snd (Append example_builder delivered_batch)))
    = [0; 1; 1]
  ∧ rd_summary (relatedData (snd (Append example_builder delivered_batch))) = []
  ∧ rd_histogram (relatedData (snd (Append example_builder delivered_batch))) = []
  ∧ rd_ehistogram (relatedData (snd (Append example_builder delivered_batch))) = []
  ∧ acc_calls (rd_resource (relatedData (snd (Append example_builder delivered_batch))))
    = [(0, [("env"%string, pcommon.ValueStr "prod")])].
Proof. vm_compute. repeat split. Qed.
